(** * filaswitch: the switch tower (switch_tower.py)

    A shallow embedding of class [SwitchTower] and of its four generators
    (raft, switch/tower, infill, and the retraction / z-hop / wall helpers),
    followed by the properties the specification states about them.

    Conventions of the embedding.
    - Python numbers (floats and the small integers mixed with them) are
      exact rationals [Q]; the properties below depend on no rounding.
      Counters ([purge_lines], [range]) and the tool index are [Z].
    - A Python generator is a computation in the monad [Gen]: it reads and
      writes the [SwitchTower] object ([self]) and appends the lines it
      yields. A fully consumed call gives its lines ([lines_of]) and the
      object after it ([after]).
    - A yielded line is kept as the source writes it: a literal, a format
      string with its arguments, or a call to a collaborator
      ([gcode.gen_head_move], [gcode.gen_direction_move],
      [extruder.get_prime_gcode], [extruder.get_retract_gcode]) recorded
      with its arguments. The collaborators' own text is out of scope.
    - What the source imports and this file does not have ([utils], [math],
      the direction constants of [gcode]) is a [Variable] of the section. *)

From Stdlib Require Import QArith Qabs Qminmax ZArith String List Bool Sorted Lia Lqa.
Import ListNotations.

Local Open Scope string_scope.
Local Open Scope Z_scope.
Local Open Scope Q_scope.
Local Open Scope list_scope.

(** ** Python values *)

Module Py.

(** [x < y] and [x != y] on numbers, as booleans. *)
Definition ltb (x y : Q) : bool := negb (Qle_bool y x).
Definition neb (x y : Q) : bool := negb (Qeq_bool x y).

(** Truth value of a number: [if x:] holds unless [x] is zero. *)
Definition truthy (x : Q) : bool := neb x 0.

(** [int(x)]: truncation toward zero. *)
Definition int (x : Q) : Z := Z.quot (Qnum x) (Zpos (Qden x)).

(** [range(n)]. *)
Definition range (n : Z) : list Z := map Z.of_nat (seq 0 (Z.to_nat n)).

End Py.

(** ** Collaborators: extruder and layer *)

Module Extruder.

(** The attributes and the numeric method the tower reads. A z-hop or a
    wipe the extruder does not define is 0 (false as a condition). *)
Record t : Type := {
  tool : Z;
  retract : Q;
  retract_speed : Q;
  z_hop : Q;
  wipe : Q;
  get_feed_rate : Q -> Q      (* get_feed_rate(multiplier=...) *)
}.

Definition with_z_hop (e : t) (h : Q) : t :=
  {| tool := tool e; retract := retract e; retract_speed := retract_speed e;
     z_hop := h; wipe := wipe e; get_feed_rate := get_feed_rate e |}.

End Extruder.

Module Layer.

Record t : Type := {
  height : Q;
  z : Q;
  get_outer_perimeter_rates : Q * Q   (* (min_speed, feed_rate) *)
}.

End Layer.

(** ** Lines *)

(** An argument of a [%] format. *)
Inductive value : Type :=
| Num (q : Q)
| Int (n : Z).

(** The command of a line. *)
Inductive cmd : Type :=
| Bytes (s : string)
    (* b"..." *)
| Format (fmt : string) (args : list value)
    (* ("..." % (...)).encode() *)
| gen_head_move (x y speed : Q)
    (* gcode.gen_head_move(x, y, speed) *)
| gen_direction_move (direction length speed : Q)
    (extruder : option Extruder.t) (feed_rate : option Q) (last_line : bool).
    (* gcode.gen_direction_move(direction, length, speed,
                                [extruder, [feed_rate=...], [last_line=...]]) *)

(** What a generator yields: a [(cmd, comment)] tuple, either side possibly
    [None], or the tuple an extruder's emitter returns. *)
Inductive line : Type :=
| Line (c : option cmd) (comment : option string)
| get_prime_gcode (e : Extruder.t) (change : option Q)
| get_retract_gcode (e : Extruder.t).

Definition comment_of (l : line) : option string :=
  match l with
  | Line _ c => c
  | _ => None
  end.

Definition has_comment (s : string) (l : line) : bool :=
  match comment_of l with
  | Some c => String.eqb c s
  | None => false
  end.

(** A tool-change command: the line [T<tool>]. *)
Definition is_tool_change (l : line) : bool :=
  match l with
  | Line (Some (Format fmt _)) _ => String.eqb fmt "T%s"
  | _ => false
  end.

Definition is_purge_trail : line -> bool := has_comment " purge trail".
Definition is_z_hop : line -> bool := has_comment " z-hop".
Definition is_infill : line -> bool := has_comment " infill".

(** The lines that follow the first tool change. *)
Fixpoint after_tool_change (ls : list line) : list line :=
  match ls with
  | [] => []
  | l :: ls' => if is_tool_change l then ls' else after_tool_change ls'
  end.

Definition count (p : line -> bool) (ls : list line) : nat :=
  length (filter p ls).

(** ** hw configs *)

Definition PEEK : string := "PEEK-PRO-12".
Definition PTFE : string := "PTFE-PRO-12".
Definition E3DV6 : string := "PTFE-EV6".

Definition HW_CONFIGS : list string := [PTFE; E3DV6; PEEK].

(** ** The tower object *)

Record SwitchTower : Type := {
  width : Q;
  height : Q;
  hw_config : string;
  wall_width : Q;
  wall_height : Q;
  raft_width : Q;
  raft_height : Q;
  angle : Q;
  start_pos_x : Q;
  start_pos_y : Q;
  raft_pos_x : Q;
  raft_pos_y : Q;
  last_tower_z : Q;
  flipflop_purge : bool;
  flipflop_infill : bool;
  purge_line_length : Q;
  purge_lines : Z;
  prepurge_sign : Q;
  pre_switch_lines : bool -> list line;   (* the dict {True: [...], False: [...]} *)
  post_switch_lines : list line
}.

(** Attribute assignments, [self.f = v]. *)

Definition set_last_tower_z (self : SwitchTower) (v : Q) : SwitchTower :=
  {| width := width self; height := height self; hw_config := hw_config self;
     wall_width := wall_width self; wall_height := wall_height self;
     raft_width := raft_width self; raft_height := raft_height self;
     angle := angle self; start_pos_x := start_pos_x self;
     start_pos_y := start_pos_y self; raft_pos_x := raft_pos_x self;
     raft_pos_y := raft_pos_y self; last_tower_z := v;
     flipflop_purge := flipflop_purge self;
     flipflop_infill := flipflop_infill self;
     purge_line_length := purge_line_length self;
     purge_lines := purge_lines self; prepurge_sign := prepurge_sign self;
     pre_switch_lines := pre_switch_lines self;
     post_switch_lines := post_switch_lines self |}.

Definition set_flipflop_purge (self : SwitchTower) (v : bool) : SwitchTower :=
  {| width := width self; height := height self; hw_config := hw_config self;
     wall_width := wall_width self; wall_height := wall_height self;
     raft_width := raft_width self; raft_height := raft_height self;
     angle := angle self; start_pos_x := start_pos_x self;
     start_pos_y := start_pos_y self; raft_pos_x := raft_pos_x self;
     raft_pos_y := raft_pos_y self; last_tower_z := last_tower_z self;
     flipflop_purge := v;
     flipflop_infill := flipflop_infill self;
     purge_line_length := purge_line_length self;
     purge_lines := purge_lines self; prepurge_sign := prepurge_sign self;
     pre_switch_lines := pre_switch_lines self;
     post_switch_lines := post_switch_lines self |}.

Definition set_flipflop_infill (self : SwitchTower) (v : bool) : SwitchTower :=
  {| width := width self; height := height self; hw_config := hw_config self;
     wall_width := wall_width self; wall_height := wall_height self;
     raft_width := raft_width self; raft_height := raft_height self;
     angle := angle self; start_pos_x := start_pos_x self;
     start_pos_y := start_pos_y self; raft_pos_x := raft_pos_x self;
     raft_pos_y := raft_pos_y self; last_tower_z := last_tower_z self;
     flipflop_purge := flipflop_purge self;
     flipflop_infill := v;
     purge_line_length := purge_line_length self;
     purge_lines := purge_lines self; prepurge_sign := prepurge_sign self;
     pre_switch_lines := pre_switch_lines self;
     post_switch_lines := post_switch_lines self |}.

Definition set_prepurge_sign (self : SwitchTower) (v : Q) : SwitchTower :=
  {| width := width self; height := height self; hw_config := hw_config self;
     wall_width := wall_width self; wall_height := wall_height self;
     raft_width := raft_width self; raft_height := raft_height self;
     angle := angle self; start_pos_x := start_pos_x self;
     start_pos_y := start_pos_y self; raft_pos_x := raft_pos_x self;
     raft_pos_y := raft_pos_y self; last_tower_z := last_tower_z self;
     flipflop_purge := flipflop_purge self;
     flipflop_infill := flipflop_infill self;
     purge_line_length := purge_line_length self;
     purge_lines := purge_lines self; prepurge_sign := v;
     pre_switch_lines := pre_switch_lines self;
     post_switch_lines := post_switch_lines self |}.

Definition set_pre_switch_lines (self : SwitchTower) (v : bool -> list line)
  : SwitchTower :=
  {| width := width self; height := height self; hw_config := hw_config self;
     wall_width := wall_width self; wall_height := wall_height self;
     raft_width := raft_width self; raft_height := raft_height self;
     angle := angle self; start_pos_x := start_pos_x self;
     start_pos_y := start_pos_y self; raft_pos_x := raft_pos_x self;
     raft_pos_y := raft_pos_y self; last_tower_z := last_tower_z self;
     flipflop_purge := flipflop_purge self;
     flipflop_infill := flipflop_infill self;
     purge_line_length := purge_line_length self;
     purge_lines := purge_lines self; prepurge_sign := prepurge_sign self;
     pre_switch_lines := v;
     post_switch_lines := post_switch_lines self |}.

Definition set_post_switch_lines (self : SwitchTower) (v : list line)
  : SwitchTower :=
  {| width := width self; height := height self; hw_config := hw_config self;
     wall_width := wall_width self; wall_height := wall_height self;
     raft_width := raft_width self; raft_height := raft_height self;
     angle := angle self; start_pos_x := start_pos_x self;
     start_pos_y := start_pos_y self; raft_pos_x := raft_pos_x self;
     raft_pos_y := raft_pos_y self; last_tower_z := last_tower_z self;
     flipflop_purge := flipflop_purge self;
     flipflop_infill := flipflop_infill self;
     purge_line_length := purge_line_length self;
     purge_lines := purge_lines self; prepurge_sign := prepurge_sign self;
     pre_switch_lines := pre_switch_lines self;
     post_switch_lines := v |}.

(** [self.pre_switch_lines[k].append(l)] and [self.post_switch_lines.append(l)]. *)
Definition pre_append (k : bool) (l : line) (self : SwitchTower) : SwitchTower :=
  set_pre_switch_lines self
    (fun b => if Bool.eqb b k then pre_switch_lines self b ++ [l]
              else pre_switch_lines self b).

Definition post_append (l : line) (self : SwitchTower) : SwitchTower :=
  set_post_switch_lines self (post_switch_lines self ++ [l]).

(** ** Generators *)

(** A generator body: from the object to a result, the object after it and
    the lines yielded on the way. *)
Definition Gen (A : Type) : Type := SwitchTower -> A * SwitchTower * list line.

Definition ret {A : Type} (a : A) : Gen A := fun self => (a, self, []).

Definition bind {A B : Type} (m : Gen A) (f : A -> Gen B) : Gen B :=
  fun self =>
    let '(a, self1, out1) := m self in
    let '(b, self2, out2) := f a self1 in
    (b, self2, out1 ++ out2).

Definition yield (l : line) : Gen unit := fun self => (tt, self, [l]).

Definition get : Gen SwitchTower := fun self => (self, self, []).

Definition modify (f : SwitchTower -> SwitchTower) : Gen unit :=
  fun self => (tt, f self, []).

Declare Scope gen_scope.
Delimit Scope gen_scope with gen.
Notation "x <- m ;; k" := (bind m (fun x => k))
  (at level 61, m at next level, right associativity) : gen_scope.
Notation "' pat <- m ;; k" :=
  (bind m (fun x => match x with pat => k end))
  (at level 61, pat pattern, m at next level, right associativity) : gen_scope.
Notation "m ;; k" := (bind m (fun _ => k))
  (at level 61, right associativity) : gen_scope.
Local Open Scope gen_scope.

(** [if o: yield o] for a helper result that is a tuple or [None]. *)
Definition yield_if (o : option line) : Gen unit :=
  match o with
  | Some l => yield l
  | None => ret tt
  end.

(** [if c: ...] with no [else]. *)
Definition when (c : bool) (m : Gen unit) : Gen unit :=
  if c then m else ret tt.

(** [for x in xs: body]. *)
Fixpoint for_each {A : Type} (xs : list A) (body : A -> Gen unit) : Gen unit :=
  match xs with
  | [] => ret tt
  | x :: xs' => body x ;; for_each xs' body
  end.

(** A [for] loop that updates local variables [s]. *)
Fixpoint for_fold {A L : Type} (xs : list A) (s : L) (body : L -> A -> Gen L)
  : Gen L :=
  match xs with
  | [] => ret s
  | x :: xs' => s' <- body s x ;; for_fold xs' s' body
  end.

(** A fully consumed call: the lines in order ([lines_of]), the object
    after it ([after]) and the value returned ([res]). *)
Definition lines_of {A : Type} (g : Gen A) (self : SwitchTower) : list line :=
  snd (g self).

Definition after {A : Type} (g : Gen A) (self : SwitchTower) : SwitchTower :=
  snd (fst (g self)).

Definition res {A : Type} (g : Gen A) (self : SwitchTower) : A :=
  fst (fst (g self)).

Definition consume (g : Gen unit) (self : SwitchTower)
  : list line * SwitchTower :=
  (lines_of g self, after g self).

(** Shorthands for the two usual shapes of a line. *)
Definition raw (c : string) (comment : string) : line :=
  Line (Some (Bytes c)) (Some comment).
Definition fmt (f : string) (args : list value) (comment : string) : line :=
  Line (Some (Format f args)) (Some comment).

(** A block of statements on the object, run in order. *)
Definition block (stmts : list (SwitchTower -> SwitchTower))
  (self : SwitchTower) : SwitchTower :=
  fold_left (fun s f => f s) stmts self.

(** The lines of an optional line. *)
Definition opt (o : option line) : list line :=
  match o with
  | Some l => [l]
  | None => []
  end.

(** A generator body that leaves the object as it found it. *)
Definition pure {A : Type} (g : Gen A) : Prop := forall self, after g self = self.

(** ** class SwitchTower: construction *)

Definition init_pre_switch_gcode (self : SwitchTower) : SwitchTower :=
  let self := set_pre_switch_lines self
                (fun b => if Bool.eqb b true then [] else pre_switch_lines self b) in
  let self := set_pre_switch_lines self
                (fun b => if Bool.eqb b false then [] else pre_switch_lines self b) in
  if (hw_config self =? PEEK)%string then
    (* flip *)
    let prepurge_feed_rate := fun x => x * (4.5 / 50) in
    let prepurge_feed_length := prepurge_feed_rate (width self) in
    block [
      pre_append true (fmt "G1 X%.3f E%.4f F6000" [Num (width self); Num prepurge_feed_length] " purge trail");
      pre_append true (raw "G1 Y0.6 F3000" " Y shift");
      pre_append true (fmt "G1 X%.3f E%.4f F6000" [Num (- width self); Num prepurge_feed_length] " purge trail");
      pre_append true (raw "G1 Y1.4 F3000" " Y shift");
      pre_append true (fmt "G1 X%.3f E%.4f F6000" [Num (width self); Num prepurge_feed_length] " purge trail");
      pre_append true (raw "G1 Y0.6 F3000" " Y shift");
      pre_append true (fmt "G1 X%.3f E%.4f F6000" [Num (- width self); Num prepurge_feed_length] " purge trail");
      pre_append true (raw "G1 Y1.4 F3000" " Y shift");

      pre_append true (fmt "G1 X%.3f E%.4f F1500" [Int 10; Int (-20)] " drip trail");
      pre_append true (raw "G1 E-15 F1500" " 25mm/s reshaping");
      pre_append true (raw "G4 P2000" " 2s cooling period");
      pre_append true (raw "G1 E-95 F1500" " 25mm/s long retract");

      (* flop *)
      pre_append false (fmt "G1 X%.3f E%.4f F6000" [Num (width self); Num prepurge_feed_length] " purge trail");
      pre_append false (raw "G1 Y1.4 F3000" " Y shift");
      pre_append false (fmt "G1 X%.3f E%.4f F6000" [Num (- width self); Num prepurge_feed_length] " purge trail");
      pre_append false (raw "G1 Y0.6 F3000" " Y shift");
      pre_append false (fmt "G1 X%.3f E%.4f F6000" [Num (width self); Num prepurge_feed_length] " purge trail");
      pre_append false (raw "G1 Y1.4 F3000" " Y shift");
      pre_append false (fmt "G1 X%.3f E%.4f F6000" [Num (- width self); Num prepurge_feed_length] " purge trail");
      pre_append false (raw "G1 Y0.6 F3000" " Y shift");

      pre_append false (fmt "G1 X%.3f E%.4f F1500" [Int 10; Int (-20)] " drip trail");
      pre_append false (raw "G1 E-15 F1500" " 25mm/s reshaping");
      pre_append false (raw "G4 P2000" " 2s cooling period");
      pre_append false (raw "G1 E-95 F1500" " 25mm/s long retract")
    ] self

  else if (hw_config self =? PTFE)%string then

    let prepurge_feed_rate := fun x => x * (4.5 / 50) in
    let prepurge_feed_length := prepurge_feed_rate (width self) in
    block [
      pre_append true (fmt "G1 X%.3f E%.4f F6000" [Num (width self); Num prepurge_feed_length] " purge trail");
      pre_append true (raw "G1 Y0.6 F3000" " Y shift");
      pre_append true (fmt "G1 X%.3f E%.4f F6000" [Num (- width self); Num prepurge_feed_length] " purge trail");
      pre_append true (raw "G1 Y1.4 F3000" " Y shift");
      pre_append true (fmt "G1 X%.3f E%.4f F6000" [Num (width self); Num prepurge_feed_length] " purge trail");
      pre_append true (raw "G1 Y0.6 F3000" " Y shift");
      pre_append true (fmt "G1 X%.3f E%.4f F6000" [Num (- width self); Num prepurge_feed_length] " purge trail");
      pre_append true (raw "G1 Y1.4 F3000" " Y shift");

      pre_append true (raw "G1 E-20 F3000" " rapid retract");
      pre_append true (raw "G4 P2500" " 2.5s cooling period");
      pre_append true (raw "G1 E-140 F3000" " 50mm/s long retract");

      (* flop *)
      pre_append false (fmt "G1 X%.3f E%.4f F6000" [Num (width self); Num prepurge_feed_length] " purge trail");
      pre_append false (raw "G1 Y1.4 F3000" " Y shift");
      pre_append false (fmt "G1 X%.3f E%.4f F6000" [Num (- width self); Num prepurge_feed_length] " purge trail");
      pre_append false (raw "G1 Y0.6 F3000" " Y shift");
      pre_append false (fmt "G1 X%.3f E%.4f F6000" [Num (width self); Num prepurge_feed_length] " purge trail");
      pre_append false (raw "G1 Y1.4 F3000" " Y shift");
      pre_append false (fmt "G1 X%.3f E%.4f F6000" [Num (- width self); Num prepurge_feed_length] " purge trail");
      pre_append false (raw "G1 Y0.6 F3000" " Y shift");

      pre_append false (raw "G1 E-20 F3000" " rapid retract");
      pre_append false (raw "G4 P2500" " 2.5s cooling period");
      pre_append false (raw "G1 E-140 F3000" " 50mm/s long retract")
    ] self

  else if (hw_config self =? E3DV6)%string then

    let prepurge_feed_rate := fun x => x * (4.5 / 50) in
    let prepurge_feed_length := prepurge_feed_rate (width self) in
    block [
      pre_append true (fmt "G1 X%.3f E%.4f F6000" [Num (width self); Num prepurge_feed_length] " purge trail");
      pre_append true (raw "G1 Y0.8 F3000" " Y shift");
      pre_append true (fmt "G1 X%.3f E%.4f F6000" [Num (- width self); Num prepurge_feed_length] " purge trail");
      pre_append true (raw "G1 Y1.4 F3000" " Y shift");
      pre_append true (fmt "G1 X%.3f E%.4f F6000" [Num (width self); Num prepurge_feed_length] " purge trail");
      pre_append true (raw "G1 Y0.6 F3000" " Y shift");
      pre_append true (fmt "G1 X%.3f E%.4f F6000" [Num (- width self); Num prepurge_feed_length] " purge trail");
      pre_append true (raw "G1 Y1.4 F3000" " Y shift");
      pre_append true (fmt "G1 X%.3f E%.4f F6000" [Num (width self); Num prepurge_feed_length] " purge trail");
      pre_append true (raw "G1 Y1 F3000" " Y shift");

      pre_append true (raw "G1 E-20 F3000" " rapid retract");
      pre_append true (raw "G4 P2500" " 2.5s cooling period");
      pre_append true (raw "G1 E-140 F3000" " 50mm/s long retract");

      (* flop *)
      pre_append false (fmt "G1 X%.3f E%.4f F6000" [Num (width self); Num prepurge_feed_length] " purge trail");
      pre_append false (raw "G1 Y1.4 F3000" " Y shift");
      pre_append false (fmt "G1 X%.3f E%.4f F6000" [Num (- width self); Num prepurge_feed_length] " purge trail");
      pre_append false (raw "G1 Y0.6 F3000" " Y shift");
      pre_append false (fmt "G1 X%.3f E%.4f F6000" [Num (width self); Num prepurge_feed_length] " purge trail");
      pre_append false (raw "G1 Y1.4 F3000" " Y shift");
      pre_append false (fmt "G1 X%.3f E%.4f F6000" [Num (- width self); Num prepurge_feed_length] " purge trail");
      pre_append false (raw "G1 Y0.6 F3000" " Y shift");
      pre_append false (fmt "G1 X%.3f E%.4f F6000" [Num (width self); Num prepurge_feed_length] " purge trail");
      pre_append false (raw "G1 Y1.4 F3000" " Y shift");

      pre_append false (raw "G1 E-20 F3000" " rapid retract");
      pre_append false (raw "G4 P2500" " 2.5s cooling period");
      pre_append false (raw "G1 E-140 F3000" " 50mm/s long retract")
    ] self

  else self.

Definition init_post_switch_gcode (self : SwitchTower) : SwitchTower :=
  if (hw_config self =? PEEK)%string then
    let primetrail_feed_rate := fun x => x * (1.6 / 40) in
    let primetrail_length := primetrail_feed_rate (width self) in
    block [
      post_append (raw "G1 E125 F1500" " 25mm/s feed");
      post_append (fmt "G1 X%.3f E%.4f F1500" [Num (width self - 10); Num primetrail_length] " prime trail");
      fun self => set_prepurge_sign self 1
    ] self
  else if (hw_config self =? PTFE)%string then
    let primetrail_feed_rate := fun x => x * (5 / 50) in
    let primetrail_length := primetrail_feed_rate (width self) in
    block [
      post_append (raw "G1 E100 F3000" " 50mm/s feed");
      post_append (raw "G1 E54 F1500" " 25mm/s feed");
      post_append (fmt "G1 X%.3f E%.4f F900" [Num (width self); Num primetrail_length] " prime trail");
      fun self => set_prepurge_sign self 1
    ] self
  else if (hw_config self =? E3DV6)%string then
    let primetrail_feed_rate := fun x => x * (5 / 50) in
    let primetrail_length := primetrail_feed_rate (width self) in
    block [
      post_append (raw "G1 E100 F3000" " 50mm/s feed");
      post_append (raw "G1 E54 F1500" " 25mm/s feed");
      post_append (fmt "G1 X%.3f E%.4f F900" [Num (- width self); Num primetrail_length] " prime trail");
      fun self => set_prepurge_sign self (-1)
    ] self
  else self.

Definition __init__ (start_pos_x start_pos_y : Q) (hw_config : string)
  : SwitchTower :=
  let width := 50 in
  let height := 14 in (* use even values *)
  let height := if (hw_config =? E3DV6)%string then height + 2 else height in
  (* post purge line config *)
  let purge_lines := (Py.int (Qabs (height / 2)) - 1)%Z in
  let purge_lines :=
    if (hw_config =? E3DV6)%string then (purge_lines - 1)%Z else purge_lines in
  let self :=
    {| width := width;
       height := height;
       hw_config := hw_config;
       wall_width := width + 2.4;
       wall_height := height + 1;
       raft_width := width + 4;
       raft_height := height + 2;
       angle := 0;
       start_pos_x := start_pos_x;
       start_pos_y := start_pos_y;
       raft_pos_x := start_pos_x - 2;
       raft_pos_y := start_pos_y - 1.2;
       last_tower_z := 0;
       flipflop_purge := false;
       flipflop_infill := false;
       purge_line_length := width + 0.6;
       purge_lines := purge_lines;
       (* is prepurge position positive or negative *)
       prepurge_sign := 1;
       pre_switch_lines := fun _ => [];
       post_switch_lines := [] |} in
  let self := init_pre_switch_gcode self in
  init_post_switch_gcode self.

(** Initialize a list for purge speeds. *)
Definition generate_purge_speeds (self : SwitchTower) (min_speed : Q) : list Q :=
  let speed := min_speed in
  let min_speed_lines := 0%Z in
  let purge_speeds := [] in
  snd (fold_left
         (fun '(speed, purge_speeds) i =>
            let speed := if (i >=? min_speed_lines)%Z then 2400 else speed in
            (speed, speed :: purge_speeds))       (* insert(0, speed) *)
         (Py.range (purge_lines self))
         (speed, purge_speeds)).

(** ** Values for closed examples *)

Module utils.

(** Modelled from the spec: [utils.is_float_zero(value, precision)], which
    is not among the sources. The spec has it hold when the magnitude of
    [value] is within a tolerance of [precision] decimal places of zero. *)
Definition is_float_zero (value : Q) (precision : Z) : bool :=
  Py.ltb (Qabs value) (1 / inject_Z (10 ^ precision)).

End utils.

Module Sample.

(** Values for what the section takes as variables, for the closed examples
    below: compass angles for the directions of [gcode], and stand-ins for
    [math.atan], [math.degrees] and [gcode.calculate_path_length], on which
    no example depends. *)
Definition E : Q := 0.
Definition N : Q := 90.
Definition W : Q := 180.
Definition S : Q := 270.
Definition SE : Q := 315.
Definition atan (x : Q) : Q := x.
Definition degrees (x : Q) : Q := x * (180 / 3.14159).
Definition calculate_path_length (a b : Q * Q) : Q :=
  Qabs (fst b - fst a) + Qabs (snd b - snd a).

Definition layer : Layer.t :=
  {| Layer.height := 0.2; Layer.z := 0.4;
     Layer.get_outer_perimeter_rates := (1200, 0.05) |}.

Definition e0 : Extruder.t :=
  {| Extruder.tool := 0; Extruder.retract := 2; Extruder.retract_speed := 1800;
     Extruder.z_hop := 0.5; Extruder.wipe := 0;
     Extruder.get_feed_rate := fun multiplier => multiplier * 0.05 |}.

Definition e1 : Extruder.t :=
  {| Extruder.tool := 1; Extruder.retract := 3; Extruder.retract_speed := 1800;
     Extruder.z_hop := 0; Extruder.wipe := 3;
     Extruder.get_feed_rate := fun multiplier => multiplier * 0.05 |}.

(** The tower of the source's [__main__]: [SwitchTower(0, 1, log, PEEK)]. *)
Definition tower : SwitchTower := __init__ 0 1 PEEK.

End Sample.

(** ** class SwitchTower: the generators *)

Section SwitchTower.

(** [utils.is_float_zero(value, precision)]. *)
Variable is_float_zero : Q -> Z -> bool.

(** [math.atan], [math.degrees] and [gcode.calculate_path_length]. *)
Variable atan : Q -> Q.
Variable degrees : Q -> Q.
Variable calculate_path_length : Q * Q -> Q * Q -> Q.

(** The direction constants [E], [S], [W], [N] and [SE] of [gcode]: angles,
    since the source adds 180 to one. *)
Variables dir_E dir_S dir_W dir_N dir_SE : Q.

(** G-code lines for the raft. *)
Definition get_raft_lines (first_layer : Layer.t) (extruder : Extruder.t)
  (retract : bool) (xy_speed z_speed : Q) : Gen unit :=
  yield (Line None (Some " TOWER RAFT START")) ;;
  when (Py.truthy (Extruder.z_hop extruder))
    (let z_hop := 0.2 + Extruder.z_hop extruder in
     yield (fmt "G1 Z%.3f F%s" [Num z_hop; Num z_speed] " z-hop")) ;;
  self <- get ;;
  yield (Line (Some (gen_head_move (raft_pos_x self - 0.4) (raft_pos_y self - 0.4) xy_speed))
              (Some " move to raft zone")) ;;
  yield (fmt "G1 Z0.2 F%d" [Num z_speed] " move z close") ;;
  yield (raw "G91" " relative positioning") ;;

  (* box *)
  let width := raft_width self + 0.8 in
  let height := raft_height self + 0.8 in
  let speed := 2000 in
  yield (Line (Some (gen_direction_move dir_E width speed (Some extruder) None false)) (Some " raft wall")) ;;
  yield (Line (Some (gen_direction_move dir_N height speed (Some extruder) None false)) (Some " raft wall")) ;;
  yield (Line (Some (gen_direction_move dir_W width speed (Some extruder) None false)) (Some " raft wall")) ;;
  let width := width - 0.4 in
  let height := height - 0.4 in
  yield (Line (Some (gen_direction_move dir_S height speed (Some extruder) None false)) (Some " raft wall")) ;;
  yield (Line (Some (gen_direction_move dir_E width speed (Some extruder) None false)) (Some " raft wall")) ;;
  let height := height - 0.4 in
  yield (Line (Some (gen_direction_move dir_N height speed (Some extruder) None false)) (Some " raft wall")) ;;
  let width := width - 0.4 in
  let height := height - 0.4 in
  yield (Line (Some (gen_direction_move dir_W width speed (Some extruder) None false)) (Some " raft wall")) ;;
  yield (Line (Some (gen_direction_move dir_S height speed (Some extruder) None false)) (Some " raft wall")) ;;

  yield (Line (Some (gen_direction_move dir_SE 0.6 xy_speed None None false)) None) ;;

  let feed_rate := Extruder.get_feed_rate extruder 1.3 in
  let speed := 1000 in
  for_each (Py.range (Py.int (raft_width self / 2))) (fun _ =>
    yield (Line (Some (gen_direction_move dir_N (raft_height self) speed (Some extruder) (Some feed_rate) false)) (Some " raft1")) ;;
    yield (Line (Some (gen_direction_move dir_E 1 speed None None false)) (Some " raft2")) ;;
    yield (Line (Some (gen_direction_move dir_S (raft_height self) speed (Some extruder) (Some feed_rate) false)) (Some " raft3")) ;;
    yield (Line (Some (gen_direction_move dir_E 1 speed None None false)) (Some " raft4"))) ;;

  when retract (yield (get_retract_gcode extruder)) ;;
  yield (raw "G90" " absolute positioning") ;;
  yield (Line None (Some " TOWER RAFT END")) ;;
  modify (fun self => set_last_tower_z self 0.2).

(** Get g-code for z-hop: the line, or [None]. *)
Definition _get_z_hop (self : SwitchTower) (layer : Layer.t)
  (z_hop z_speed : Q) (extruder : Extruder.t) : option line :=
  if Py.truthy (Extruder.z_hop extruder) then
    let new_z_hop := last_tower_z self + Extruder.z_hop extruder in
    if Py.neb new_z_hop (Layer.z layer + z_hop) then
      Some (fmt "G1 Z%.3f F%.1f" [Num new_z_hop; Num z_speed] " z-hop")
    else None
  else None.

(** Get g-code for retraction. Calculate needed retraction length from
    current e position. Falling off the end returns [None]. *)
Definition _get_retraction (self : SwitchTower) (e_pos : Q)
  (extruder : Extruder.t) : option line :=
  let retraction := Extruder.retract extruder + e_pos in
  if negb (is_float_zero retraction 3) then
    let retraction :=
      if Py.ltb (Extruder.retract extruder) retraction   (* retraction > extruder.retract *)
      then Extruder.retract extruder else retraction in
    Some (fmt "G1 E%.4f F%.1f" [Num (- retraction); Num (Extruder.retract_speed extruder)]
              " tower retract")
  else None.

(** G-code line for positioning head for wall print. *)
Definition _get_wall_position_gcode (self : SwitchTower) (flipflop : bool)
  (xy_speed : Q) : line :=
  let x := start_pos_x self - 1.2 in
  let y := start_pos_y self - 0.5 in
  let y := if negb flipflop then y + wall_height self else y in
  Line (Some (gen_head_move x y xy_speed)) (Some " move to purge zone").

(** G-code for printing the purge tower walls. *)
Definition _get_wall_gcode (flipflop : bool) (extruder : Extruder.t)
  (wall_speed feed_rate : Q) : Gen unit :=
  self <- get ;;
  let last_y := wall_height self - 0.3 in
  if flipflop then
    yield (Line (Some (gen_direction_move dir_E (wall_width self) wall_speed (Some extruder) (Some feed_rate) false)) (Some " wall")) ;;
    yield (Line (Some (gen_direction_move dir_N (wall_height self) wall_speed (Some extruder) (Some feed_rate) false)) (Some " wall")) ;;
    yield (Line (Some (gen_direction_move dir_W (wall_width self) wall_speed (Some extruder) (Some feed_rate) false)) (Some " wall")) ;;
    yield (Line (Some (gen_direction_move dir_S last_y wall_speed (Some extruder) (Some feed_rate) true)) (Some " wall"))
  else
    yield (Line (Some (gen_direction_move dir_E (wall_width self) wall_speed (Some extruder) (Some feed_rate) false)) (Some " wall")) ;;
    yield (Line (Some (gen_direction_move dir_S (wall_height self) wall_speed (Some extruder) (Some feed_rate) false)) (Some " wall")) ;;
    yield (Line (Some (gen_direction_move dir_W (wall_width self) wall_speed (Some extruder) (Some feed_rate) false)) (Some " wall")) ;;
    yield (Line (Some (gen_direction_move dir_N last_y wall_speed (Some extruder) (Some feed_rate) true)) (Some " wall")).

(** G-code for switch tower. *)
Definition get_tower_lines (layer : Layer.t) (e_pos : Q)
  (old_e new_e : Extruder.t) (z_hop z_speed xy_speed : Q) : Gen unit :=
  yield (Line None (Some " TOWER START")) ;;

  (* minimum speed *)
  let '(min_speed, feed_rate) := Layer.get_outer_perimeter_rates layer in

  (* handle retraction *)
  self <- get ;;
  let retraction := _get_retraction self e_pos old_e in
  yield_if retraction ;;

  (* handle z-hop *)
  let hop := _get_z_hop self layer z_hop z_speed old_e in
  yield_if hop ;;

  modify (fun self => set_last_tower_z self (last_tower_z self + Layer.height layer)) ;;
  self <- get ;;
  (if flipflop_purge self then
     yield (Line (Some (gen_head_move (start_pos_x self - 0.6) (start_pos_y self + 0.2) xy_speed))
                 (Some " move to purge zone"))
   else
     yield (Line (Some (gen_head_move (start_pos_x self + 0.6) (start_pos_y self) xy_speed))
                 (Some " move to purge zone"))) ;;

  yield (fmt "G1 Z%.3f F%.1f" [Num (last_tower_z self); Num z_speed] " move z close") ;;
  yield (raw "G91" " relative positioning") ;;
  yield (get_prime_gcode old_e (Some (-0.1))) ;;

  (* pre-switch purge *)
  for_each (pre_switch_lines self (flipflop_purge self)) yield ;;

  yield (fmt "T%s" [Int (Extruder.tool new_e)] " change tool") ;;

  (* feed new filament *)
  for_each (post_switch_lines self) yield ;;

  (* post-switch purge *)
  let purge_feed_rate := Extruder.get_feed_rate new_e 1.2 in
  (* switch direction depending of prepurge orientation *)
  let purge_length := purge_line_length self * prepurge_sign self in

  let dir_1 := if Qeq_bool (prepurge_sign self) 1 then dir_W else dir_E in
  let dir_2 := if Qeq_bool (prepurge_sign self) 1 then dir_E else dir_W in

  for_each (generate_purge_speeds self min_speed) (fun speed =>
    if flipflop_purge self then
      yield (Line (Some (gen_direction_move dir_N 0.6 3000 None None false)) (Some " Y shift")) ;;
      yield (Line (Some (gen_direction_move dir_1 purge_length speed (Some new_e) (Some purge_feed_rate) false)) (Some " purge trail")) ;;
      yield (Line (Some (gen_direction_move dir_N 0.9 3000 None None false)) (Some " Y shift")) ;;
      yield (Line (Some (gen_direction_move dir_2 purge_length speed (Some new_e) (Some purge_feed_rate) false)) (Some " purge trail"))
    else
      yield (Line (Some (gen_direction_move dir_N 0.9 3000 None None false)) (Some " Y shift")) ;;
      yield (Line (Some (gen_direction_move dir_1 purge_length speed (Some new_e) (Some purge_feed_rate) false)) (Some " purge trail")) ;;
      yield (Line (Some (gen_direction_move dir_N 0.6 3000 None None false)) (Some " Y shift")) ;;
      yield (Line (Some (gen_direction_move dir_2 purge_length speed (Some new_e) (Some purge_feed_rate) false)) (Some " purge trail"))) ;;

  (if flipflop_purge self then
     yield (Line (Some (gen_direction_move dir_N 0.6 3000 None None false)) (Some " Y shift"))
   else
     yield (Line (Some (gen_direction_move dir_N 0.9 3000 None None false)) (Some " Y shift"))) ;;
  yield (Line (Some (gen_direction_move dir_1 purge_length 2400 (Some new_e) (Some feed_rate) false)) (Some " purge trail")) ;;
  let direction := dir_1 in

  direction <-
    (if (hw_config self =? E3DV6)%string then
       (* one more purge line for E3Dv6 *)
       (if flipflop_purge self then
          yield (Line (Some (gen_direction_move dir_N 0.9 3000 None None false)) (Some " Y shift"))
        else
          yield (Line (Some (gen_direction_move dir_N 0.6 3000 None None false)) (Some " Y shift"))) ;;
       yield (Line (Some (gen_direction_move dir_2 purge_length min_speed (Some new_e) (Some feed_rate) false)) (Some " purge trail")) ;;
       ret dir_2
     else ret direction) ;;

  (* move to purge zone upper left corner *)
  yield (raw "G90" " absolute positioning") ;;
  yield (_get_wall_position_gcode self false xy_speed) ;;
  yield (raw "G91" " relative positioning") ;;

  (* wall gcode *)
  _get_wall_gcode false new_e min_speed feed_rate ;;

  yield (get_retract_gcode new_e) ;;
  when (Py.truthy (Extruder.wipe new_e))
    (yield (Line (Some (gen_direction_move (direction + 180) (Extruder.wipe new_e) 3000 None None false)) (Some " wipe"))) ;;

  yield (raw "G90" " absolute positioning") ;;
  yield (raw "G92 E0" " reset extruder position") ;;
  let hop := _get_z_hop self layer z_hop z_speed old_e in
  yield_if hop ;;
  yield (Line None (Some " TOWER END")) ;;

  (* flip the flop *)
  modify (fun self => set_flipflop_purge self (negb (flipflop_purge self))).

(** G-code for switch tower infill. *)
Definition get_infill_lines (layer : Layer.t) (e_pos : Q)
  (extruder : Extruder.t) (z_hop z_speed xy_speed : Q) : Gen unit :=
  yield (Line None (Some " TOWER INFILL START")) ;;

  (* minimum speed *)
  let '(min_speed, feed_rate) := Layer.get_outer_perimeter_rates layer in

  (* handle retraction *)
  self <- get ;;
  let retraction := _get_retraction self e_pos extruder in
  yield_if retraction ;;

  (* handle z-hop *)
  let hop := _get_z_hop self layer z_hop z_speed extruder in
  yield_if hop ;;
  modify (fun self => set_last_tower_z self (last_tower_z self + Layer.height layer)) ;;
  self <- get ;;

  yield (_get_wall_position_gcode self (flipflop_infill self) xy_speed) ;;
  yield (fmt "G1 Z%.3f F%.1f" [Num (last_tower_z self); Num z_speed] " move z close") ;;
  yield (raw "G91" " relative positioning") ;;
  yield (get_prime_gcode extruder None) ;;

  (* infill *)
  let infill_x := wall_width self / 6 in
  let infill_y := wall_height self - 0.3 in
  let infill_angle := degrees (atan (infill_y / infill_x)) in
  let infill_path_length := calculate_path_length (0, 0) (infill_x, infill_y) in

  (* wall gcode *)
  _get_wall_gcode (flipflop_infill self) extruder 2400 feed_rate ;;

  let flip := flipflop_infill self in

  let step := (2400 - min_speed) / 4 in
  let speeds := map (fun i => 2400 - inject_Z i * step) (Py.range 4) in
  let speeds := speeds ++ [min_speed; min_speed] in

  let direction := infill_angle in
  let round := Z.of_nat (length speeds) in
  '(direction, _, _) <-
    for_fold speeds (direction, round, flip) (fun '(direction, round, flip) speed =>
      let round := (round - 1)%Z in
      let direction := if flip then infill_angle else 360 - infill_angle in
      yield (Line (Some (gen_direction_move direction infill_path_length speed
                           (Some extruder) (Some feed_rate) (round =? 0)%Z))
                  (Some " infill")) ;;
      let flip := negb flip in
      ret (direction, round, flip)) ;;

  yield (get_retract_gcode extruder) ;;
  when (Py.truthy (Extruder.wipe extruder))
    (yield (Line (Some (gen_direction_move (direction + 180) (Extruder.wipe extruder) 2000 None None false)) (Some " wipe"))) ;;

  yield (raw "G90" " absolute positioning") ;;
  let hop := _get_z_hop self layer z_hop z_speed extruder in
  yield_if hop ;;
  yield (raw "G92 E0" " reset extruder position") ;;
  yield (Line None (Some " TOWER INFILL END")) ;;

  (* flip the flop *)
  modify (fun self => set_flipflop_infill self (negb (flipflop_infill self))).

(** ** The lines of a switch call, as lists *)

(** The sequence a switch call yields, cut into its parts. The properties
    below read the parts; [lines_get_tower_lines] shows the generator
    yields exactly them, in this order. *)

Let y_shift (d : Q) : line :=
  Line (Some (gen_direction_move dir_N d 3000 None None false)) (Some " Y shift").

Let trail (self : SwitchTower) (first : bool) (speed : Q)
  (new_e : Extruder.t) (feed : Q) : line :=
  Line (Some (gen_direction_move
                (if Qeq_bool (prepurge_sign self) 1
                 then (if first then dir_W else dir_E)
                 else (if first then dir_E else dir_W))
                (purge_line_length self * prepurge_sign self)
                speed (Some new_e) (Some feed) false))
       (Some " purge trail").

(** From the start marker to the prime nudge before the tables. *)
Definition tower_head (self : SwitchTower) (layer : Layer.t) (e_pos : Q)
  (old_e : Extruder.t) (z_hop z_speed xy_speed : Q) : list line :=
  [Line None (Some " TOWER START")]
  ++ opt (_get_retraction self e_pos old_e)
  ++ opt (_get_z_hop self layer z_hop z_speed old_e)
  ++ [Line (Some (if flipflop_purge self
                  then gen_head_move (start_pos_x self - 0.6) (start_pos_y self + 0.2) xy_speed
                  else gen_head_move (start_pos_x self + 0.6) (start_pos_y self) xy_speed))
           (Some " move to purge zone");
      fmt "G1 Z%.3f F%.1f" [Num (last_tower_z self + Layer.height layer); Num z_speed]
          " move z close";
      raw "G91" " relative positioning"]
  ++ [get_prime_gcode old_e (Some (-0.1))].

(** The two passes of one round of the post-switch purge loop. *)
Definition purge_round (self : SwitchTower) (new_e : Extruder.t) (speed : Q)
  : list line :=
  [y_shift (if flipflop_purge self then 0.6 else 0.9);
   trail self true speed new_e (Extruder.get_feed_rate new_e 1.2);
   y_shift (if flipflop_purge self then 0.9 else 0.6);
   trail self false speed new_e (Extruder.get_feed_rate new_e 1.2)].

(** The post-switch purge: the loop, the finishing pass, and the extra
    pass of E3DV6. *)
Definition tower_purge (self : SwitchTower) (layer : Layer.t)
  (new_e : Extruder.t) : list line :=
  flat_map (purge_round self new_e)
    (generate_purge_speeds self (fst (Layer.get_outer_perimeter_rates layer)))
  ++ [y_shift (if flipflop_purge self then 0.6 else 0.9);
      trail self true 2400 new_e (snd (Layer.get_outer_perimeter_rates layer))]
  ++ (if (hw_config self =? E3DV6)%string then
        [y_shift (if flipflop_purge self then 0.9 else 0.6);
         trail self false (fst (Layer.get_outer_perimeter_rates layer)) new_e
               (snd (Layer.get_outer_perimeter_rates layer))]
      else []).

(** From the move to the wall corner to the end marker. [self] is the
    object before the call. *)
Definition tower_tail (self : SwitchTower) (layer : Layer.t)
  (old_e new_e : Extruder.t) (z_hop z_speed xy_speed : Q) : list line :=
  let self1 := set_last_tower_z self (last_tower_z self + Layer.height layer) in
  let min_speed := fst (Layer.get_outer_perimeter_rates layer) in
  let feed_rate := snd (Layer.get_outer_perimeter_rates layer) in
  let wall d l last :=
    Line (Some (gen_direction_move d l min_speed (Some new_e) (Some feed_rate) last))
         (Some " wall") in
  let direction :=
    if (hw_config self =? E3DV6)%string
    then (if Qeq_bool (prepurge_sign self) 1 then dir_E else dir_W)
    else (if Qeq_bool (prepurge_sign self) 1 then dir_W else dir_E) in
  [raw "G90" " absolute positioning";
   _get_wall_position_gcode self1 false xy_speed;
   raw "G91" " relative positioning";
   wall dir_E (wall_width self) false;
   wall dir_S (wall_height self) false;
   wall dir_W (wall_width self) false;
   wall dir_N (wall_height self - 0.3) true;
   get_retract_gcode new_e]
  ++ (if Py.truthy (Extruder.wipe new_e) then
        [Line (Some (gen_direction_move (direction + 180) (Extruder.wipe new_e) 3000
                       None None false))
              (Some " wipe")]
      else [])
  ++ [raw "G90" " absolute positioning";
      raw "G92 E0" " reset extruder position"]
  ++ opt (_get_z_hop self1 layer z_hop z_speed old_e)
  ++ [Line None (Some " TOWER END")].

Definition tool_change (new_e : Extruder.t) : line :=
  fmt "T%s" [Int (Extruder.tool new_e)] " change tool".

(** ** The lines of an infill call, as lists *)

(** The computed diagonal angle, in degrees. *)
Definition infill_angle (self : SwitchTower) : Q :=
  degrees (atan ((wall_height self - 0.3) / (wall_width self / 6))).

(** Pass [i] of the fill at speed [speed], on a tower whose infill flag is
    [flip]: the angle of the even passes is the diagonal angle when [flip]
    holds, and the other one otherwise. *)
Definition infill_pass (self : SwitchTower) (layer : Layer.t)
  (extruder : Extruder.t) (flip : bool) (speed : Q) (last_line : bool) : line :=
  Line (Some (gen_direction_move
                (if flip then infill_angle self else 360 - infill_angle self)
                (calculate_path_length
                   (0, 0) (wall_width self / 6, wall_height self - 0.3))
                speed (Some extruder)
                (Some (snd (Layer.get_outer_perimeter_rates layer))) last_line))
       (Some " infill").

(** The six passes of the zig-zag fill. *)
Definition infill_zigzag (self : SwitchTower) (layer : Layer.t)
  (extruder : Extruder.t) : list line :=
  let min_speed := fst (Layer.get_outer_perimeter_rates layer) in
  let step := (2400 - min_speed) / 4 in
  let flip := flipflop_infill self in
  [infill_pass self layer extruder flip (2400 - inject_Z 0 * step) false;
   infill_pass self layer extruder (negb flip) (2400 - inject_Z 1 * step) false;
   infill_pass self layer extruder flip (2400 - inject_Z 2 * step) false;
   infill_pass self layer extruder (negb flip) (2400 - inject_Z 3 * step) false;
   infill_pass self layer extruder flip min_speed false;
   infill_pass self layer extruder (negb flip) min_speed true].

(** From the start marker to the wall. [self] is the object before the call. *)
Definition infill_head (self : SwitchTower) (layer : Layer.t) (e_pos : Q)
  (extruder : Extruder.t) (z_hop z_speed xy_speed : Q) : list line :=
  let self1 := set_last_tower_z self (last_tower_z self + Layer.height layer) in
  let feed_rate := snd (Layer.get_outer_perimeter_rates layer) in
  let wall d l last :=
    Line (Some (gen_direction_move d l 2400 (Some extruder) (Some feed_rate) last))
         (Some " wall") in
  [Line None (Some " TOWER INFILL START")]
  ++ opt (_get_retraction self e_pos extruder)
  ++ opt (_get_z_hop self layer z_hop z_speed extruder)
  ++ [_get_wall_position_gcode self1 (flipflop_infill self) xy_speed;
      fmt "G1 Z%.3f F%.1f" [Num (last_tower_z self1); Num z_speed] " move z close";
      raw "G91" " relative positioning";
      get_prime_gcode extruder None;
      wall dir_E (wall_width self) false;
      wall (if flipflop_infill self then dir_N else dir_S) (wall_height self) false;
      wall dir_W (wall_width self) false;
      wall (if flipflop_infill self then dir_S else dir_N) (wall_height self - 0.3) true].

(** From the retraction after the fill to the end marker. *)
Definition infill_tail (self : SwitchTower) (layer : Layer.t)
  (extruder : Extruder.t) (z_hop z_speed : Q) : list line :=
  let self1 := set_last_tower_z self (last_tower_z self + Layer.height layer) in
  let direction :=
    if negb (flipflop_infill self) then infill_angle self
    else 360 - infill_angle self in
  [get_retract_gcode extruder]
  ++ (if Py.truthy (Extruder.wipe extruder) then
        [Line (Some (gen_direction_move (direction + 180) (Extruder.wipe extruder) 2000
                       None None false))
              (Some " wipe")]
      else [])
  ++ [raw "G90" " absolute positioning"]
  ++ opt (_get_z_hop self1 layer z_hop z_speed extruder)
  ++ [raw "G92 E0" " reset extruder position";
      Line None (Some " TOWER INFILL END")].

(** ** Jobs: a tower driven through a sequence of calls *)

(** One call on the tower, with its arguments. *)
Inductive call : Type :=
| RaftCall (first_layer : Layer.t) (extruder : Extruder.t) (retract : bool)
    (xy_speed z_speed : Q)
| TowerCall (layer : Layer.t) (e_pos : Q) (old_e new_e : Extruder.t)
    (z_hop z_speed xy_speed : Q)
| InfillCall (layer : Layer.t) (e_pos : Q) (extruder : Extruder.t)
    (z_hop z_speed xy_speed : Q).

(** A switch or infill call whose layer has a height that is not negative. *)
Definition grows (c : call) : Prop :=
  match c with
  | RaftCall _ _ _ _ _ => False
  | TowerCall layer _ _ _ _ _ _ => 0 <= Layer.height layer
  | InfillCall layer _ _ _ _ _ => 0 <= Layer.height layer
  end.

(** What the properties of a switch call need of the tables: no table line
    is a tool change or a z-hop, and the prime table has no purge trail. *)
Definition tables_ok (self : SwitchTower) : Prop :=
  (forall b, filter is_tool_change (pre_switch_lines self b) = [])
  /\ filter is_tool_change (post_switch_lines self) = []
  /\ filter is_purge_trail (post_switch_lines self) = []
  /\ (forall b, filter is_z_hop (pre_switch_lines self b) = [])
  /\ filter is_z_hop (post_switch_lines self) = []
  /\ purge_lines self = 6%Z.

Definition run_call (c : call) : Gen unit :=
  match c with
  | RaftCall first_layer extruder retract xy_speed z_speed =>
      get_raft_lines
        first_layer extruder retract xy_speed z_speed
  | TowerCall layer e_pos old_e new_e z_hop z_speed xy_speed =>
      get_tower_lines
        layer e_pos old_e new_e z_hop z_speed xy_speed
  | InfillCall layer e_pos extruder z_hop z_speed xy_speed =>
      get_infill_lines layer e_pos extruder z_hop z_speed xy_speed
  end.

(** The tower of a job: built by the constructor, then driven through
    [calls], each fully consumed. *)
Definition tower_of (x y : Q) (hw : string) (calls : list call) : SwitchTower :=
  after (for_each calls run_call) (__init__ x y hw).

(** The values of [last_tower_z] after each call of [calls], in order. *)
Fixpoint z_trace (calls : list call) (self : SwitchTower) : list Q :=
  match calls with
  | [] => []
  | c :: calls' =>
      let self' := after (run_call c) self in
      last_tower_z self' :: z_trace calls' self'
  end.

(** A line when it is a lift command, and a blank otherwise: the lift
    commands of a sequence, each at its place. *)
Definition lift_of (l : line) : option line :=
  if is_z_hop l then Some l else None.

(** ** Readings of a line *)

Definition cmd_of (l : line) : option cmd :=
  match l with
  | Line c _ => c
  | _ => None
  end.

(** A section marker: a comment and no command. *)
Definition is_marker (l : line) : bool :=
  match l with
  | Line None (Some _) => true
  | _ => false
  end.

(** A positioning-mode command, [G90] or [G91]. *)
Definition is_mode (l : line) : bool :=
  match cmd_of l with
  | Some (Bytes s) => String.eqb s "G90" || String.eqb s "G91"
  | _ => false
  end.

Definition is_reset : line -> bool := has_comment " reset extruder position".
Definition is_wipe : line -> bool := has_comment " wipe".
Definition is_y_shift : line -> bool := has_comment " Y shift".
Definition is_move_z_close : line -> bool := has_comment " move z close".

(** The lines of the raft fill: the passes up and down, and the steps east
    between them. *)
Definition is_raft_pass (l : line) : bool :=
  has_comment " raft1" l || has_comment " raft3" l.
Definition is_raft_step (l : line) : bool :=
  has_comment " raft2" l || has_comment " raft4" l.

(** The lines of the wall, and the moves to a corner of the purge zone. *)
Definition is_wall : line -> bool := has_comment " wall".
Definition is_corner_move : line -> bool := has_comment " move to purge zone".

(** The extruder a line drives: the one handed to [gen_direction_move], or
    the one whose prime or retract command the line is. *)
Definition extruder_of (l : line) : option Extruder.t :=
  match l with
  | Line (Some (gen_direction_move _ _ _ e _ _)) _ => e
  | Line _ _ => None
  | get_prime_gcode e _ => Some e
  | get_retract_gcode e => Some e
  end.

Definition has_extruder (l : line) : bool :=
  match extruder_of l with
  | Some _ => true
  | None => false
  end.

(** Direction, length and speed of a directional move. *)
Definition direction_of (l : line) : option Q :=
  match l with
  | Line (Some (gen_direction_move d _ _ _ _ _)) _ => Some d
  | _ => None
  end.

Definition length_of (l : line) : option Q :=
  match l with
  | Line (Some (gen_direction_move _ len _ _ _ _)) _ => Some len
  | _ => None
  end.

Definition speed_of (l : line) : option Q :=
  match l with
  | Line (Some (gen_direction_move _ _ s _ _ _)) _ => Some s
  | _ => None
  end.


(** ** The lines of a raft call, as lists *)

(** From the start marker to the diagonal shift before the fill. *)
Definition raft_head (self : SwitchTower) (extruder : Extruder.t)
  (xy_speed z_speed : Q) : list line :=
  let wall d l :=
    Line (Some (gen_direction_move d l 2000 (Some extruder) None false))
         (Some " raft wall") in
  let width := raft_width self + 0.8 in
  let height := raft_height self + 0.8 in
  [Line None (Some " TOWER RAFT START")]
  ++ (if Py.truthy (Extruder.z_hop extruder) then
        [fmt "G1 Z%.3f F%s" [Num (0.2 + Extruder.z_hop extruder); Num z_speed] " z-hop"]
      else [])
  ++ [Line (Some (gen_head_move (raft_pos_x self - 0.4) (raft_pos_y self - 0.4) xy_speed))
           (Some " move to raft zone");
      fmt "G1 Z0.2 F%d" [Num z_speed] " move z close";
      raw "G91" " relative positioning";
      wall dir_E width;
      wall dir_N height;
      wall dir_W width;
      wall dir_S (height - 0.4);
      wall dir_E (width - 0.4);
      wall dir_N (height - 0.4 - 0.4);
      wall dir_W (width - 0.4 - 0.4);
      wall dir_S (height - 0.4 - 0.4 - 0.4);
      Line (Some (gen_direction_move dir_SE 0.6 xy_speed None None false)) None].

(** One round of the raft fill: up, one east, down, one east. *)
Definition raft_round (self : SwitchTower) (extruder : Extruder.t) : list line :=
  let feed_rate := Extruder.get_feed_rate extruder 1.3 in
  [Line (Some (gen_direction_move dir_N (raft_height self) 1000 (Some extruder) (Some feed_rate) false)) (Some " raft1");
   Line (Some (gen_direction_move dir_E 1 1000 None None false)) (Some " raft2");
   Line (Some (gen_direction_move dir_S (raft_height self) 1000 (Some extruder) (Some feed_rate) false)) (Some " raft3");
   Line (Some (gen_direction_move dir_E 1 1000 None None false)) (Some " raft4")].

Definition raft_fill (self : SwitchTower) (extruder : Extruder.t) : list line :=
  flat_map (fun _ => raft_round self extruder)
    (Py.range (Py.int (raft_width self / 2))).

Definition raft_tail (extruder : Extruder.t) (retract : bool) : list line :=
  (if retract then [get_retract_gcode extruder] else [])
  ++ [raw "G90" " absolute positioning";
      Line None (Some " TOWER RAFT END")].

(** ** Counting the calls of a job *)

Definition is_switch_call (c : call) : bool :=
  match c with
  | TowerCall _ _ _ _ _ _ _ => true
  | _ => false
  end.

Definition is_infill_call (c : call) : bool :=
  match c with
  | InfillCall _ _ _ _ _ _ => true
  | _ => false
  end.

(** What one call does to [last_tower_z]. *)
Definition z_step (z : Q) (c : call) : Q :=
  match c with
  | RaftCall _ _ _ _ _ => 0.2
  | TowerCall layer _ _ _ _ _ _ => z + Layer.height layer
  | InfillCall layer _ _ _ _ _ => z + Layer.height layer
  end.

(** The object with its three mutable attributes set. *)
Definition with_state (self : SwitchTower) (z : Q) (purge infill : bool)
  : SwitchTower :=
  set_flipflop_infill (set_flipflop_purge (set_last_tower_z self z) purge) infill.

(** The table lines are plain moves and dwells: none is a marker, a mode
    command, an extruder reset, a wipe or a descent, and none drives an
    extruder object. *)
Definition tables_plain (self : SwitchTower) : Prop :=
  forall p : line -> bool,
    In p [is_marker; is_mode; is_reset; is_wipe; is_move_z_close; has_extruder;
          is_wall; is_corner_move] ->
    (forall b, filter p (pre_switch_lines self b) = [])
    /\ filter p (post_switch_lines self) = [].

(** * Properties *)

(** ** Python values *)

Lemma ltb_lt (x y : Q) : Py.ltb x y = true <-> x < y.
Proof.
  unfold Py.ltb. rewrite negb_true_iff. split; intros H.
  - apply Qnot_le_lt. intros Hle. apply Qle_bool_iff in Hle. congruence.
  - destruct (Qle_bool y x) eqn:E; [|reflexivity].
    apply Qle_bool_iff in E. exfalso. apply (Qlt_not_le _ _ H E).
Qed.

Lemma ltb_ge (x y : Q) : Py.ltb x y = false <-> y <= x.
Proof.
  unfold Py.ltb. rewrite negb_false_iff. apply Qle_bool_iff.
Qed.

Lemma neb_neq (x y : Q) : Py.neb x y = true <-> ~ x == y.
Proof.
  unfold Py.neb. rewrite negb_true_iff. split; intros H.
  - intros Heq. apply Qeq_bool_iff in Heq. congruence.
  - destruct (Qeq_bool x y) eqn:E; [|reflexivity].
    apply Qeq_bool_iff in E. contradiction.
Qed.

(** ** Equations of the generator monad *)

Section GenEquations.

Context {A B : Type}.

Lemma lines_bind (m : Gen A) (k : A -> Gen B) self :
  lines_of (bind m k) self
  = lines_of m self ++ lines_of (k (res m self)) (after m self).
Proof.
  unfold lines_of, after, res, bind.
  destruct (m self) as [[a s1] o1]; simpl.
  destruct (k a s1) as [[b s2] o2]; reflexivity.
Qed.

Lemma after_bind (m : Gen A) (k : A -> Gen B) self :
  after (bind m k) self = after (k (res m self)) (after m self).
Proof.
  unfold after, res, bind.
  destruct (m self) as [[a s1] o1]; simpl.
  destruct (k a s1) as [[b s2] o2]; reflexivity.
Qed.

Lemma res_bind (m : Gen A) (k : A -> Gen B) self :
  res (bind m k) self = res (k (res m self)) (after m self).
Proof.
  unfold after, res, bind.
  destruct (m self) as [[a s1] o1]; simpl.
  destruct (k a s1) as [[b s2] o2]; reflexivity.
Qed.

Lemma lines_bind_pure (m : Gen A) (k : A -> Gen B) self :
  pure m ->
  lines_of (bind m k) self = lines_of m self ++ lines_of (k (res m self)) self.
Proof. intros H. now rewrite lines_bind, H. Qed.

Lemma after_bind_pure (m : Gen A) (k : A -> Gen B) self :
  pure m -> after (bind m k) self = after (k (res m self)) self.
Proof. intros H. now rewrite after_bind, H. Qed.

Lemma res_bind_pure (m : Gen A) (k : A -> Gen B) self :
  pure m -> res (bind m k) self = res (k (res m self)) self.
Proof. intros H. now rewrite res_bind, H. Qed.

Lemma pure_bind (m : Gen A) (k : A -> Gen B) :
  pure m -> (forall a, pure (k a)) -> pure (bind m k).
Proof. intros Hm Hk self. now rewrite after_bind, Hm, Hk. Qed.

Lemma pure_if (c : bool) (m1 m2 : Gen A) :
  pure m1 -> pure m2 -> pure (if c then m1 else m2).
Proof. now destruct c. Qed.

Lemma pure_ret (a : A) : pure (ret a).
Proof. intros self. reflexivity. Qed.

Lemma lines_if (c : bool) (m1 m2 : Gen A) self :
  lines_of (if c then m1 else m2) self
  = if c then lines_of m1 self else lines_of m2 self.
Proof. now destruct c. Qed.

Lemma res_if (c : bool) (m1 m2 : Gen A) self :
  res (if c then m1 else m2) self
  = if c then res m1 self else res m2 self.
Proof. now destruct c. Qed.

Lemma lines_ret (a : A) self : lines_of (ret a) self = [].
Proof. reflexivity. Qed.

Lemma res_ret (a : A) self : res (ret a) self = a.
Proof. reflexivity. Qed.

Lemma lines_bind_modify f (k : unit -> Gen B) self :
  lines_of (bind (modify f) k) self = lines_of (k tt) (f self).
Proof. unfold lines_of, bind, modify. now destruct (k tt (f self)) as [[b s2] o2]. Qed.

Lemma after_bind_modify f (k : unit -> Gen B) self :
  after (bind (modify f) k) self = after (k tt) (f self).
Proof. unfold after, bind, modify. now destruct (k tt (f self)) as [[b s2] o2]. Qed.

End GenEquations.

Lemma pure_yield l : pure (yield l).
Proof. intros self. reflexivity. Qed.

Lemma pure_get : pure get.
Proof. intros self. reflexivity. Qed.

Lemma pure_yield_if o : pure (yield_if o).
Proof. intros self. now destruct o. Qed.

Lemma pure_when c m : pure m -> pure (when c m).
Proof. now destruct c. Qed.

Lemma pure_for_each {A : Type} (xs : list A) (body : A -> Gen unit) :
  (forall x, pure (body x)) -> pure (for_each xs body).
Proof.
  intros Hbody. induction xs as [|x xs IH]; simpl.
  - apply pure_ret.
  - apply pure_bind; auto.
Qed.

(** Closes a goal [pure g] for a body made of yields. *)
Ltac solve_pure :=
  repeat (intros; cbv beta;
          first [ apply pure_yield | apply pure_get | apply pure_ret
                | apply pure_yield_if | apply pure_when
                | apply pure_for_each | apply pure_if | apply pure_bind ]).

Lemma lines_yield l self : lines_of (yield l) self = [l].
Proof. reflexivity. Qed.

Lemma lines_get self : lines_of get self = [].
Proof. reflexivity. Qed.

Lemma res_get self : res get self = self.
Proof. reflexivity. Qed.

Lemma lines_modify f self : lines_of (modify f) self = [].
Proof. reflexivity. Qed.

Lemma after_modify f self : after (modify f) self = f self.
Proof. reflexivity. Qed.

Lemma lines_yield_if o self : lines_of (yield_if o) self = opt o.
Proof. now destruct o. Qed.

Lemma lines_when c m self :
  lines_of (when c m) self = if c then lines_of m self else [].
Proof. now destruct c. Qed.

(** A loop yields its bodies' lines in order. *)
Lemma lines_for_each {A : Type} (xs : list A) (body : A -> Gen unit) self :
  (forall x, pure (body x)) ->
  lines_of (for_each xs body) self
  = flat_map (fun x => lines_of (body x) self) xs.
Proof.
  intros Hbody. induction xs as [|x xs IH]; simpl.
  - reflexivity.
  - now rewrite lines_bind, Hbody, IH.
Qed.

Lemma lines_for_each_yield (xs : list line) self :
  lines_of (for_each xs yield) self = xs.
Proof.
  rewrite lines_for_each by apply pure_yield.
  induction xs as [|x xs IH]; simpl; [reflexivity | now rewrite IH].
Qed.

Create Rewrite HintDb gen.

#[local] Hint Rewrite
  @lines_bind_modify @after_bind_modify
  @lines_if @res_if @lines_ret @res_ret
  lines_yield lines_get res_get lines_modify after_modify
  lines_yield_if lines_when lines_for_each_yield : gen.

#[local] Hint Rewrite
  @lines_bind_pure @after_bind_pure @res_bind_pure using solve [solve_pure] : gen.

(** ** Lists of lines *)

Lemma filter_flat_map {A B : Type} (p : B -> bool) (f : A -> list B) xs :
  filter p (flat_map f xs) = flat_map (fun x => filter p (f x)) xs.
Proof.
  induction xs as [|x xs IH]; simpl; [reflexivity|].
  now rewrite filter_app, IH.
Qed.

Lemma map_flat_map {A B C : Type} (g : B -> C) (f : A -> list B) xs :
  map g (flat_map f xs) = flat_map (fun x => map g (f x)) xs.
Proof.
  induction xs as [|x xs IH]; simpl; [reflexivity|].
  now rewrite map_app, IH.
Qed.

Lemma flat_map_nil {A B : Type} (xs : list A) :
  flat_map (fun _ => @nil B) xs = [].
Proof. induction xs; simpl; auto. Qed.

Lemma length_flat_map_const {A B : Type} (f : A -> list B) (n : nat) xs :
  (forall x, length (f x) = n) ->
  length (flat_map f xs) = (n * length xs)%nat.
Proof.
  intros Hf. induction xs as [|x xs IH]; simpl; [lia|].
  rewrite length_app, Hf, IH. lia.
Qed.

Lemma count_app p l1 l2 : count p (l1 ++ l2) = (count p l1 + count p l2)%nat.
Proof. unfold count. now rewrite filter_app, length_app. Qed.

Lemma count_none p l : filter p l = [] -> count p l = 0%nat.
Proof. unfold count. now intros ->. Qed.

Lemma after_tool_change_app l1 t l2 :
  filter is_tool_change l1 = [] ->
  is_tool_change t = true ->
  after_tool_change (l1 ++ t :: l2) = l2.
Proof.
  intros Hl1 Ht. induction l1 as [|l l1 IH]; simpl in *.
  - now rewrite Ht.
  - destruct (is_tool_change l); [discriminate | auto].
Qed.

(** Splits on every condition of the goal. *)
Ltac destruct_ifs :=
  repeat match goal with
         | |- context [if ?c then _ else _] => destruct c
         end.

(** ** What a switch call yields *)

Lemma lines_get_tower_lines layer e_pos old_e new_e z_hop z_speed xy_speed self :
  lines_of (get_tower_lines
              layer e_pos old_e new_e z_hop z_speed xy_speed) self
  = tower_head self layer e_pos old_e z_hop z_speed xy_speed
    ++ pre_switch_lines self (flipflop_purge self)
    ++ [tool_change new_e]
    ++ post_switch_lines self
    ++ tower_purge self layer new_e
    ++ tower_tail self layer old_e new_e z_hop z_speed xy_speed.
Proof.
  unfold get_tower_lines, _get_wall_gcode, tower_head, tower_purge, tower_tail,
    tool_change.
  destruct (Layer.get_outer_perimeter_rates layer) as [min_speed feed_rate].
  autorewrite with gen.
  rewrite lines_for_each by solve_pure.
  cbn [fst snd last_tower_z flipflop_purge set_last_tower_z start_pos_x
       start_pos_y pre_switch_lines post_switch_lines prepurge_sign
       purge_line_length hw_config wall_height wall_width].
  unfold generate_purge_speeds. cbn [purge_lines set_last_tower_z].
  rewrite <- !app_assoc. cbn [app].
  do 3 f_equal.
  erewrite flat_map_ext
    with (g := purge_round self new_e)
    by (intros; unfold purge_round; destruct (flipflop_purge self);
        autorewrite with gen; reflexivity).
  destruct (flipflop_purge self), (hw_config self =? E3DV6)%string;
    reflexivity.
Qed.

Lemma after_get_tower_lines layer e_pos old_e new_e z_hop z_speed xy_speed self :
  after (get_tower_lines
           layer e_pos old_e new_e z_hop z_speed xy_speed) self
  = set_flipflop_purge
      (set_last_tower_z self (last_tower_z self + Layer.height layer))
      (negb (flipflop_purge self)).
Proof.
  unfold get_tower_lines, _get_wall_gcode.
  destruct (Layer.get_outer_perimeter_rates layer) as [min_speed feed_rate].
  autorewrite with gen. reflexivity.
Qed.

(** ** What each part of a switch call holds *)

Lemma head_no_tool_change self layer e_pos old_e z_hop z_speed xy_speed :
  filter is_tool_change (tower_head self layer e_pos old_e z_hop z_speed xy_speed)
  = [].
Proof.
  unfold tower_head, _get_retraction, _get_z_hop.
  destruct_ifs; reflexivity.
Qed.

Lemma head_z_hop self layer e_pos old_e z_hop z_speed xy_speed :
  filter is_z_hop (tower_head self layer e_pos old_e z_hop z_speed xy_speed)
  = opt (_get_z_hop self layer z_hop z_speed old_e).
Proof.
  unfold tower_head, _get_retraction, _get_z_hop.
  destruct_ifs; reflexivity.
Qed.

Lemma purge_no_tool_change self layer new_e :
  filter is_tool_change (tower_purge self layer new_e) = [].
Proof.
  unfold tower_purge.
  rewrite !filter_app, filter_flat_map.
  erewrite flat_map_ext with (g := fun _ => [])
    by (intros; unfold purge_round; reflexivity).
  rewrite flat_map_nil. destruct_ifs; reflexivity.
Qed.

Lemma purge_no_z_hop self layer new_e :
  filter is_z_hop (tower_purge self layer new_e) = [].
Proof.
  unfold tower_purge.
  rewrite !filter_app, filter_flat_map.
  erewrite flat_map_ext with (g := fun _ => [])
    by (intros; unfold purge_round; reflexivity).
  rewrite flat_map_nil. destruct_ifs; reflexivity.
Qed.

Lemma purge_count_trails self layer new_e :
  count is_purge_trail (tower_purge self layer new_e)
  = (2 * length (generate_purge_speeds self
                   (fst (Layer.get_outer_perimeter_rates layer)))
     + (if (hw_config self =? E3DV6)%string then 2 else 1))%nat.
Proof.
  unfold tower_purge, count.
  rewrite !filter_app, !length_app, filter_flat_map.
  rewrite length_flat_map_const with (n := 2%nat)
    by (intros; unfold purge_round; reflexivity).
  destruct_ifs; reflexivity.
Qed.

Lemma tail_no_tool_change self layer old_e new_e z_hop z_speed xy_speed :
  filter is_tool_change (tower_tail self layer old_e new_e z_hop z_speed xy_speed)
  = [].
Proof.
  unfold tower_tail, _get_z_hop.
  destruct_ifs; reflexivity.
Qed.

Lemma tail_no_purge_trail self layer old_e new_e z_hop z_speed xy_speed :
  filter is_purge_trail (tower_tail self layer old_e new_e z_hop z_speed xy_speed)
  = [].
Proof.
  unfold tower_tail, _get_z_hop.
  destruct_ifs; reflexivity.
Qed.

Lemma tail_z_hop self layer old_e new_e z_hop z_speed xy_speed :
  filter is_z_hop (tower_tail self layer old_e new_e z_hop z_speed xy_speed)
  = opt (_get_z_hop
           (set_last_tower_z self (last_tower_z self + Layer.height layer))
           layer z_hop z_speed old_e).
Proof.
  unfold tower_tail, _get_z_hop.
  destruct_ifs; reflexivity.
Qed.

(** ** What an infill call yields *)

Lemma lines_get_infill_lines layer e_pos extruder z_hop z_speed xy_speed self :
  lines_of (get_infill_lines
              layer e_pos extruder z_hop z_speed xy_speed) self
  = infill_head self layer e_pos extruder z_hop z_speed xy_speed
    ++ infill_zigzag self layer extruder
    ++ infill_tail self layer extruder z_hop z_speed.
Proof.
  unfold get_infill_lines, _get_wall_gcode, infill_head, infill_zigzag,
    infill_tail, infill_pass, infill_angle.
  destruct (Layer.get_outer_perimeter_rates layer) as [min_speed feed_rate].
  change (Py.range 4) with [0; 1; 2; 3]%Z.
  cbn [map app for_fold].
  autorewrite with gen.
  cbn [fst snd last_tower_z flipflop_infill set_last_tower_z wall_height
       wall_width].
  rewrite <- !app_assoc. cbn [app].
  do 3 f_equal.
  destruct (flipflop_infill self); reflexivity.
Qed.

Lemma after_get_infill_lines layer e_pos extruder z_hop z_speed xy_speed self :
  after (get_infill_lines
           layer e_pos extruder z_hop z_speed xy_speed) self
  = set_flipflop_infill
      (set_last_tower_z self (last_tower_z self + Layer.height layer))
      (negb (flipflop_infill self)).
Proof.
  unfold get_infill_lines, _get_wall_gcode.
  destruct (Layer.get_outer_perimeter_rates layer) as [min_speed feed_rate].
  change (Py.range 4) with [0; 1; 2; 3]%Z.
  cbn [map app for_fold].
  autorewrite with gen. reflexivity.
Qed.

(** ** The raft call *)

Lemma after_get_raft_lines first_layer extruder retract xy_speed z_speed self :
  after (get_raft_lines
           first_layer extruder retract xy_speed z_speed) self
  = set_last_tower_z self 0.2.
Proof.
  unfold get_raft_lines.
  autorewrite with gen. reflexivity.
Qed.

(** ** The tables the constructor builds *)

Lemma hw_cases (hw : string) :
  hw = PEEK \/ hw = PTFE \/ hw = E3DV6
  \/ ((hw =? PEEK)%string = false /\ (hw =? PTFE)%string = false
      /\ (hw =? E3DV6)%string = false).
Proof.
  destruct (String.eqb_spec hw PEEK); [now left|].
  destruct (String.eqb_spec hw PTFE); [now right; left|].
  destruct (String.eqb_spec hw E3DV6); [now right; right; left|].
  now right; right; right.
Qed.

Lemma hw_config_init_pre self :
  hw_config (init_pre_switch_gcode self) = hw_config self.
Proof. unfold init_pre_switch_gcode. destruct_ifs; reflexivity. Qed.

Lemma hw_config_init_post self :
  hw_config (init_post_switch_gcode self) = hw_config self.
Proof. unfold init_post_switch_gcode. destruct_ifs; reflexivity. Qed.

Lemma init_pre_unknown self :
  (hw_config self =? PEEK)%string = false ->
  (hw_config self =? PTFE)%string = false ->
  (hw_config self =? E3DV6)%string = false ->
  forall b, pre_switch_lines (init_pre_switch_gcode self) b = [].
Proof.
  intros H1 H2 H3 b.
  unfold init_pre_switch_gcode.
  change (hw_config (set_pre_switch_lines _ _)) with (hw_config self).
  rewrite H1, H2, H3. now destruct b.
Qed.

Lemma init_post_unknown self :
  (hw_config self =? PEEK)%string = false ->
  (hw_config self =? PTFE)%string = false ->
  (hw_config self =? E3DV6)%string = false ->
  init_post_switch_gcode self = self.
Proof.
  intros H1 H2 H3.
  unfold init_post_switch_gcode. now rewrite H1, H2, H3.
Qed.

Lemma init_unknown x y hw :
  (hw =? PEEK)%string = false -> (hw =? PTFE)%string = false ->
  (hw =? E3DV6)%string = false ->
  (forall b, pre_switch_lines (__init__ x y hw) b = [])
  /\ post_switch_lines (__init__ x y hw) = []
  /\ purge_lines (__init__ x y hw) = 6%Z.
Proof.
  intros H1 H2 H3.
  unfold __init__. rewrite H3.
  rewrite init_post_unknown by (now rewrite hw_config_init_pre).
  split; [|split].
  - now apply init_pre_unknown.
  - unfold init_pre_switch_gcode.
    change (hw_config (set_pre_switch_lines _ _)) with hw.
    now rewrite H1, H2, H3.
  - unfold init_pre_switch_gcode.
    change (hw_config (set_pre_switch_lines _ _)) with hw.
    now rewrite H1, H2, H3.
Qed.

Lemma init_tables_ok x y hw : tables_ok (__init__ x y hw).
Proof.
  destruct (hw_cases hw) as [-> | [-> | [-> | (H1 & H2 & H3)]]].
  1-3: unfold tables_ok; repeat split; try intros [|]; reflexivity.
  destruct (init_unknown x y hw H1 H2 H3) as (Hpre & Hpost & Hn).
  unfold tables_ok. rewrite Hpost, Hn.
  repeat split; intros; now rewrite Hpre.
Qed.

Lemma last_tower_z_init x y hw : last_tower_z (__init__ x y hw) = 0.
Proof.
  unfold __init__.
  match goal with
  | |- last_tower_z (init_post_switch_gcode (init_pre_switch_gcode ?s)) = _ =>
      generalize (eq_refl : last_tower_z s = 0); generalize s
  end.
  intros s Hs.
  unfold init_post_switch_gcode, init_pre_switch_gcode.
  destruct_ifs; exact Hs.
Qed.

Lemma hw_config_init x y hw : hw_config (__init__ x y hw) = hw.
Proof.
  unfold __init__. now rewrite hw_config_init_post, hw_config_init_pre.
Qed.

(** ** Jobs *)

Lemma after_run_call c self :
  after (run_call c) self
  = match c with
    | RaftCall _ _ _ _ _ => set_last_tower_z self 0.2
    | TowerCall layer _ _ _ _ _ _ =>
        set_flipflop_purge
          (set_last_tower_z self (last_tower_z self + Layer.height layer))
          (negb (flipflop_purge self))
    | InfillCall layer _ _ _ _ _ =>
        set_flipflop_infill
          (set_last_tower_z self (last_tower_z self + Layer.height layer))
          (negb (flipflop_infill self))
    end.
Proof.
  destruct c; simpl.
  - apply after_get_raft_lines.
  - apply after_get_tower_lines.
  - apply after_get_infill_lines.
Qed.

(** No call touches the tables, the hardware selector or the geometry. *)
Lemma run_call_frame c self :
  pre_switch_lines (after (run_call c) self) = pre_switch_lines self
  /\ post_switch_lines (after (run_call c) self) = post_switch_lines self
  /\ purge_lines (after (run_call c) self) = purge_lines self
  /\ hw_config (after (run_call c) self) = hw_config self.
Proof. rewrite after_run_call. destruct c; repeat split. Qed.

Lemma drive_frame calls self :
  pre_switch_lines (after (for_each calls run_call) self) = pre_switch_lines self
  /\ post_switch_lines (after (for_each calls run_call) self)
     = post_switch_lines self
  /\ purge_lines (after (for_each calls run_call) self) = purge_lines self
  /\ hw_config (after (for_each calls run_call) self) = hw_config self.
Proof.
  revert self. induction calls as [|c calls IH]; intros self; simpl.
  - repeat split.
  - rewrite after_bind.
    destruct (IH (after (run_call c) self)) as (H1 & H2 & H3 & H4).
    destruct (run_call_frame c self) as (G1 & G2 & G3 & G4).
    rewrite H1, H2, H3, H4. auto.
Qed.

Lemma tower_of_tables_ok x y hw calls : tables_ok (tower_of x y hw calls).
Proof.
  unfold tower_of, tables_ok.
  destruct (drive_frame calls (__init__ x y hw)) as (H1 & H2 & H3 & H4).
  rewrite H1, H2, H3. apply init_tables_ok.
Qed.

Lemma tower_of_hw_config x y hw calls : hw_config (tower_of x y hw calls) = hw.
Proof.
  unfold tower_of.
  destruct (drive_frame calls (__init__ x y hw)) as (H1 & H2 & H3 & H4).
  rewrite H4. apply hw_config_init.
Qed.

(** ** The purge speeds *)

Lemma repeat_snoc {A : Type} (a : A) n l : repeat a n ++ a :: l = a :: repeat a n ++ l.
Proof. induction n as [|n IH]; simpl; [reflexivity | now rewrite IH]. Qed.

Lemma purge_speeds_loop k s speed acc :
  snd (fold_left
         (fun '(speed, purge_speeds) i =>
            let speed := if (i >=? 0)%Z then 2400 else speed in
            (speed, speed :: purge_speeds))
         (map Z.of_nat (seq s k)) (speed, acc))
  = repeat 2400 k ++ acc.
Proof.
  revert s speed acc. induction k as [|k IH]; intros s speed acc; simpl.
  - reflexivity.
  - replace (Z.of_nat s >=? 0)%Z with true
      by (symmetry; apply Z.geb_le; lia).
    rewrite IH. apply repeat_snoc.
Qed.

Lemma generate_purge_speeds_repeat self min_speed :
  generate_purge_speeds self min_speed = repeat 2400 (Z.to_nat (purge_lines self)).
Proof.
  unfold generate_purge_speeds, Py.range.
  rewrite purge_speeds_loop. apply app_nil_r.
Qed.

(** ** The claims *)

(** C4. For every [min_speed], [generate_purge_speeds] returns a list of
    length [purge_lines] whose every element is 2400: it is 2400 repeated
    [purge_lines] times, whatever [min_speed] is. *)
Theorem generate_purge_speeds_all_2400 (self : SwitchTower) (min_speed : Q) :
  generate_purge_speeds self min_speed = repeat 2400 (Z.to_nat (purge_lines self))
  /\ length (generate_purge_speeds self min_speed) = Z.to_nat (purge_lines self)
  /\ Forall (fun speed => speed = 2400) (generate_purge_speeds self min_speed).
Proof.
  rewrite generate_purge_speeds_repeat. repeat split.
  - apply repeat_length.
  - apply Forall_forall. intros speed Hin. now apply repeat_spec in Hin.
Qed.

(** C1. On the tower of any job, a fully consumed switch call yields
    exactly one tool-change command and changes the object exactly by
    adding the layer's height to [last_tower_z] and inverting
    [flipflop_purge]; a fully consumed infill call inverts
    [flipflop_infill] (and adds the layer's height); a switch call leaves
    [flipflop_infill] alone and an infill call leaves [flipflop_purge]
    alone. *)
Theorem switch_and_infill_state_delta (x y : Q) (hw : string) (calls : list call)
  (layer : Layer.t) (e_pos : Q) (old_e new_e extruder : Extruder.t)
  (z_hop z_speed xy_speed : Q) :
  let self := tower_of x y hw calls in
  let switch := get_tower_lines
                  layer e_pos old_e new_e z_hop z_speed xy_speed in
  let infill := get_infill_lines layer e_pos extruder z_hop z_speed xy_speed in
  count is_tool_change (lines_of switch self) = 1%nat
  /\ after switch self
     = set_flipflop_purge
         (set_last_tower_z self (last_tower_z self + Layer.height layer))
         (negb (flipflop_purge self))
  /\ last_tower_z (after switch self) = last_tower_z self + Layer.height layer
  /\ flipflop_purge (after switch self) = negb (flipflop_purge self)
  /\ flipflop_infill (after switch self) = flipflop_infill self
  /\ after infill self
     = set_flipflop_infill
         (set_last_tower_z self (last_tower_z self + Layer.height layer))
         (negb (flipflop_infill self))
  /\ flipflop_infill (after infill self) = negb (flipflop_infill self)
  /\ flipflop_purge (after infill self) = flipflop_purge self.
Proof.
  intros self switch infill.
  destruct (tower_of_tables_ok x y hw calls) as (Hpre & Hpost & _).
  fold self in Hpre, Hpost.
  unfold switch, infill.
  rewrite after_get_tower_lines, after_get_infill_lines, lines_get_tower_lines.
  repeat split.
  rewrite !count_app.
  rewrite (count_none _ _ (head_no_tool_change _ _ _ _ _ _ _)).
  rewrite (count_none _ _ (Hpre _)), (count_none _ _ Hpost).
  rewrite (count_none _ _ (purge_no_tool_change _ _ _)).
  rewrite (count_none _ _ (tail_no_tool_change _ _ _ _ _ _ _)).
  reflexivity.
Qed.

(** C2, as amended. On the tower of any job, a fully consumed switch call
    yields, after the tool change, [2 * purge_lines + 1] purge-trail moves
    when the hardware is PTFE or PEEK (two per purge speed and the
    finishing one) and [2 * purge_lines + 2] when it is E3DV6. *)
Theorem purge_passes_per_switch (x y : Q) (hw : string) (calls : list call)
  (layer : Layer.t) (e_pos : Q) (old_e new_e : Extruder.t)
  (z_hop z_speed xy_speed : Q) :
  let self := tower_of x y hw calls in
  let passes :=
    Z.of_nat
      (count is_purge_trail
         (after_tool_change
            (lines_of (get_tower_lines
                         layer e_pos old_e new_e z_hop z_speed xy_speed) self))) in
  (hw = PTFE \/ hw = PEEK -> passes = (2 * purge_lines self + 1)%Z)
  /\ (hw = E3DV6 -> passes = (2 * purge_lines self + 2)%Z).
Proof.
  intros self passes.
  assert (Hpasses :
            passes = (2 * purge_lines self
                      + (if (hw =? E3DV6)%string then 2 else 1))%Z).
  { destruct (tower_of_tables_ok x y hw calls)
      as (Hpre & Hpost & Htrail & _ & _ & Hn).
    pose proof (tower_of_hw_config x y hw calls) as Hhw.
    fold self in Hpre, Hpost, Htrail, Hn, Hhw.
    unfold passes. rewrite lines_get_tower_lines.
    rewrite app_assoc. cbn [app].
    rewrite after_tool_change_app;
      [| now rewrite filter_app, head_no_tool_change, Hpre | reflexivity].
    rewrite !count_app, (count_none _ _ Htrail), purge_count_trails.
    rewrite (count_none _ _ (tail_no_purge_trail _ _ _ _ _ _ _)).
    rewrite generate_purge_speeds_repeat, repeat_length, Hn, Hhw.
    destruct (hw =? E3DV6)%string; reflexivity. }
  split.
  - intros [-> | ->]; exact Hpasses.
  - intros ->. exact Hpasses.
Qed.

(** C3, as amended. The retraction helper computes
    [retraction = retract + e_pos]. When [is_float_zero retraction 3]
    holds it returns nothing. Otherwise it caps the retraction from above
    at the configured retract length (it takes the smaller of the two; a
    negative retraction is left as it is) and returns the single command
    [G1 E<-retraction> F<retract_speed>]. *)
Theorem retraction_capped_from_above (self : SwitchTower) (e_pos : Q)
  (extruder : Extruder.t) :
  let retraction := Extruder.retract extruder + e_pos in
  (is_float_zero retraction 3 = true ->
   _get_retraction self e_pos extruder = None)
  /\ (is_float_zero retraction 3 = false ->
      _get_retraction self e_pos extruder
      = Some (fmt "G1 E%.4f F%.1f"
                [Num (- Qmin retraction (Extruder.retract extruder));
                 Num (Extruder.retract_speed extruder)]
                " tower retract")).
Proof.
  intros retraction. unfold _get_retraction.
  set (r := Extruder.retract extruder + e_pos) in *. subst retraction.
  split; intros Hzero; rewrite Hzero; [reflexivity|]. cbn [negb].
  replace (Qmin r (Extruder.retract extruder))
    with (if Py.ltb (Extruder.retract extruder) r
          then Extruder.retract extruder else r); [reflexivity|].
  unfold Qmin, GenericMinMax.gmin.
  destruct (Py.ltb (Extruder.retract extruder) r) eqn:Hlt.
  - apply ltb_lt in Hlt. apply Qgt_alt in Hlt. now rewrite Hlt.
  - apply ltb_ge in Hlt. pose proof (proj1 (Qle_alt _ _) Hlt) as Hgt.
    destruct (r ?= Extruder.retract extruder) eqn:Hc; congruence.
Qed.

(** C9. When [retract + e_pos] is negative and not zero for
    [is_float_zero], the retraction helper returns a command whose E value
    is strictly positive, a filament advance at the retract speed; with a
    retract length that is not negative, the E value is the negation of
    the computed retraction: no cap applies. *)
Theorem negative_retraction_advances (self : SwitchTower) (e_pos : Q)
  (extruder : Extruder.t) :
  Extruder.retract extruder + e_pos < 0 ->
  is_float_zero (Extruder.retract extruder + e_pos) 3 = false ->
  exists e_value : Q,
    _get_retraction self e_pos extruder
    = Some (fmt "G1 E%.4f F%.1f"
              [Num e_value; Num (Extruder.retract_speed extruder)]
              " tower retract")
    /\ 0 < e_value
    /\ (0 <= Extruder.retract extruder ->
        e_value = - (Extruder.retract extruder + e_pos)).
Proof.
  intros Hneg Hzero. unfold _get_retraction. rewrite Hzero. cbn [negb].
  destruct (Py.ltb (Extruder.retract extruder)
              (Extruder.retract extruder + e_pos)) eqn:Hlt.
  - apply ltb_lt in Hlt.
    exists (- Extruder.retract extruder). repeat split; [lra | intros; lra].
  - exists (- (Extruder.retract extruder + e_pos)). repeat split. lra.
Qed.

(** C8. With an extruder whose z-hop distance is not zero, the z-hop
    helper computes [new_hop = last_tower_z + extruder.z_hop] and returns
    the lift command [G1 Z<new_hop> F<z_speed>] if and only if [new_hop]
    differs from [layer.z + z_hop], and nothing otherwise; with an
    extruder that has no z-hop distance it returns nothing. *)
Theorem z_hop_iff_differs (self : SwitchTower) (layer : Layer.t)
  (z_hop z_speed : Q) (extruder : Extruder.t) :
  let new_hop := last_tower_z self + Extruder.z_hop extruder in
  let lift := fmt "G1 Z%.3f F%.1f" [Num new_hop; Num z_speed] " z-hop" in
  (~ Extruder.z_hop extruder == 0 ->
   (_get_z_hop self layer z_hop z_speed extruder = Some lift
    <-> ~ new_hop == Layer.z layer + z_hop)
   /\ (_get_z_hop self layer z_hop z_speed extruder = None
       <-> new_hop == Layer.z layer + z_hop))
  /\ (Extruder.z_hop extruder == 0 ->
      _get_z_hop self layer z_hop z_speed extruder = None).
Proof.
  intros new_hop lift. unfold _get_z_hop, Py.truthy. fold new_hop. fold lift.
  split.
  - intros Hhop. apply neb_neq in Hhop. rewrite Hhop.
    destruct (Py.neb new_hop (Layer.z layer + z_hop)) eqn:Hne.
    + apply neb_neq in Hne. split; split; intros H;
        [assumption | reflexivity | discriminate | contradiction].
    + assert (Heq : new_hop == Layer.z layer + z_hop).
      { unfold Py.neb in Hne. apply negb_false_iff in Hne.
        now apply Qeq_bool_iff. }
      split; split; intros H;
        [discriminate | contradiction | assumption | reflexivity].
  - intros Hzero.
    replace (Py.neb (Extruder.z_hop extruder) 0) with false; [reflexivity|].
    symmetry. unfold Py.neb. apply negb_false_iff. now apply Qeq_bool_iff.
Qed.

(** After switch and infill calls on layers of non-negative height, the
    successive values of [last_tower_z] never decrease. *)
Lemma z_trace_sorted calls self :
  Forall grows calls -> Sorted Qle (last_tower_z self :: z_trace calls self).
Proof.
  intros Hcalls. revert self.
  induction Hcalls as [|c calls Hc _ IH]; intros self; simpl.
  - repeat constructor.
  - constructor; [apply IH|]. constructor.
    rewrite after_run_call.
    destruct c; simpl in *; [contradiction | lra | lra].
Qed.

(** C5. A fully consumed raft call sets [last_tower_z] to 0.2 whatever it
    was; a fully consumed switch or infill call adds exactly the layer's
    height to it; so over a job (the constructor, the raft call, then
    switch and infill calls on layers of non-negative height) the values of
    [last_tower_z] never decrease. *)
Theorem last_tower_z_monotone (x y : Q) (hw : string)
  (first_layer : Layer.t) (first_e : Extruder.t) (retract : bool)
  (raft_xy_speed raft_z_speed : Q) (calls : list call) :
  (forall self,
     last_tower_z
       (after (get_raft_lines
                 first_layer first_e retract raft_xy_speed raft_z_speed) self)
     = 0.2)
  /\ (forall self layer e_pos old_e new_e z_hop z_speed xy_speed,
       last_tower_z
         (after (get_tower_lines
                   layer e_pos old_e new_e z_hop z_speed xy_speed) self)
       = last_tower_z self + Layer.height layer)
  /\ (forall self layer e_pos extruder z_hop z_speed xy_speed,
       last_tower_z
         (after (get_infill_lines
                   layer e_pos extruder z_hop z_speed xy_speed) self)
       = last_tower_z self + Layer.height layer)
  /\ (Forall grows calls ->
      Sorted Qle
        (last_tower_z (__init__ x y hw)
         :: z_trace
              (RaftCall first_layer first_e retract raft_xy_speed raft_z_speed
               :: calls)
              (__init__ x y hw))).
Proof.
  split; [|split; [|split]].
  - intros self. now rewrite after_get_raft_lines.
  - intros. now rewrite after_get_tower_lines.
  - intros. now rewrite after_get_infill_lines.
  - intros Hcalls. cbn [z_trace]. constructor.
    + now apply z_trace_sorted.
    + constructor. rewrite after_run_call.
      rewrite last_tower_z_init.
      cbn [last_tower_z set_last_tower_z]. lra.
Qed.

(** C6. A tower built with a hardware selector outside [HW_CONFIGS] has
    empty pre-switch tables (for both flip states) and an empty prime
    table, and the constructor has no failing branch. On such a tower,
    after any calls, a switch call yields no table line: the tool change
    comes right after the prime nudge and right before the first Y shift
    of the post-switch purge. *)
Theorem unknown_hw_empty_tables (x y : Q) (hw : string) (calls : list call)
  (layer : Layer.t) (e_pos : Q) (old_e new_e : Extruder.t)
  (z_hop z_speed xy_speed : Q) :
  ~ In hw HW_CONFIGS ->
  pre_switch_lines (__init__ x y hw) true = []
  /\ pre_switch_lines (__init__ x y hw) false = []
  /\ post_switch_lines (__init__ x y hw) = []
  /\ exists before rest,
      let self := tower_of x y hw calls in
      lines_of (get_tower_lines
                  layer e_pos old_e new_e z_hop z_speed xy_speed) self
      = before
        ++ [get_prime_gcode old_e (Some (-0.1));
            fmt "T%s" [Int (Extruder.tool new_e)] " change tool";
            Line (Some (gen_direction_move dir_N
                          (if flipflop_purge self then 0.6 else 0.9) 3000
                          None None false))
                 (Some " Y shift")]
        ++ rest.
Proof.
  intros Hhw.
  assert (H1 : (hw =? PEEK)%string = false)
    by (apply String.eqb_neq; intros ->; apply Hhw; simpl; auto).
  assert (H2 : (hw =? PTFE)%string = false)
    by (apply String.eqb_neq; intros ->; apply Hhw; simpl; auto).
  assert (H3 : (hw =? E3DV6)%string = false)
    by (apply String.eqb_neq; intros ->; apply Hhw; simpl; auto).
  destruct (init_unknown x y hw H1 H2 H3) as (Hpre & Hpost & _).
  repeat split; [apply Hpre | apply Hpre | apply Hpost |].
  destruct (drive_frame calls (__init__ x y hw)) as (F1 & F2 & _ & _).
  fold (tower_of x y hw calls) in F1, F2.
  set (self := tower_of x y hw calls) in *.
  exists (removelast (tower_head self layer e_pos old_e
                        z_hop z_speed xy_speed)).
  exists (tl (tower_purge self layer new_e)
          ++ tower_tail self layer old_e new_e
               z_hop z_speed xy_speed).
  cbv zeta. rewrite lines_get_tower_lines, F1, F2, Hpre, Hpost.
  unfold tower_head. rewrite !app_assoc, removelast_last, <- !app_assoc.
  cbn [app]. do 5 f_equal. unfold tool_change. do 2 f_equal.
  unfold tower_purge.
  destruct (generate_purge_speeds self
              (fst (Layer.get_outer_perimeter_rates layer))); reflexivity.
Qed.

(** C7. Every fully consumed infill call yields exactly six fill passes:
    four at the speeds [2400 - i * step] for [i = 0, 1, 2, 3], where
    [step = (2400 - min_speed) / 4] (a fourth step would reach
    [min_speed]), then two at [min_speed]. The angle alternates from one
    pass to the next between [degrees (atan ((wall_height - 0.3) /
    (wall_width / 6)))] and 360 minus it, starting with the former when
    [flipflop_infill] holds; only the last pass is flagged [last_line]. *)
Theorem infill_six_passes (self : SwitchTower) (layer : Layer.t) (e_pos : Q)
  (extruder : Extruder.t) (z_hop z_speed xy_speed : Q) :
  let min_speed := fst (Layer.get_outer_perimeter_rates layer) in
  let feed_rate := snd (Layer.get_outer_perimeter_rates layer) in
  let step := (2400 - min_speed) / 4 in
  let diagonal :=
    degrees (atan ((wall_height self - 0.3) / (wall_width self / 6))) in
  let length :=
    calculate_path_length (0, 0) (wall_width self / 6, wall_height self - 0.3) in
  let pass (even : bool) (speed : Q) (last_line : bool) :=
    Line (Some (gen_direction_move
                  (if Bool.eqb even (flipflop_infill self)
                   then diagonal else 360 - diagonal)
                  length speed (Some extruder) (Some feed_rate) last_line))
         (Some " infill") in
  let fill :=
    filter is_infill
      (lines_of (get_infill_lines
                   layer e_pos extruder z_hop z_speed xy_speed) self) in
  fill = [pass true (2400 - inject_Z 0 * step) false;
          pass false (2400 - inject_Z 1 * step) false;
          pass true (2400 - inject_Z 2 * step) false;
          pass false (2400 - inject_Z 3 * step) false;
          pass true min_speed false;
          pass false min_speed true]
  /\ List.length fill = 6%nat
  /\ 2400 - inject_Z 4 * step == min_speed.
Proof.
  intros min_speed feed_rate step diagonal length pass fill.
  assert (Hfill : fill = infill_zigzag
                           self layer extruder).
  { unfold fill. rewrite lines_get_infill_lines, !filter_app.
    replace (filter is_infill (infill_head _ _ _ _ _ _ _)) with (@nil line)
      by (unfold infill_head, _get_retraction, _get_z_hop;
          destruct_ifs; reflexivity).
    replace (filter is_infill (infill_tail _ _ _ _ _)) with (@nil line)
      by (unfold infill_tail, _get_z_hop; destruct_ifs; reflexivity).
    now rewrite app_nil_r. }
  split; [|split].
  - rewrite Hfill. unfold infill_zigzag, infill_pass, infill_angle, pass.
    destruct (flipflop_infill self); reflexivity.
  - now rewrite Hfill.
  - unfold step. unfold inject_Z. field.
Qed.

(** C10. On the tower of any job, the lift commands of a fully consumed
    switch call are the two results of the z-hop helper on the outgoing
    extruder [old_e], the first on the object as the call found it and the
    second after [last_tower_z] was raised; and changing the z-hop distance
    of the incoming extruder [new_e] changes neither which lift commands
    are yielded nor where in the sequence they stand. *)
Theorem z_hop_uses_outgoing_extruder (x y : Q) (hw : string) (calls : list call)
  (layer : Layer.t) (e_pos : Q) (old_e new_e : Extruder.t)
  (z_hop z_speed xy_speed : Q) (other_z_hop : Q) :
  let self := tower_of x y hw calls in
  let self1 := set_last_tower_z self (last_tower_z self + Layer.height layer) in
  let switch e :=
    lines_of (get_tower_lines
                layer e_pos old_e e z_hop z_speed xy_speed) self in
  filter is_z_hop (switch new_e)
  = opt (_get_z_hop self layer z_hop z_speed old_e)
    ++ opt (_get_z_hop self1 layer z_hop z_speed old_e)
  /\ map lift_of (switch (Extruder.with_z_hop new_e other_z_hop))
     = map lift_of (switch new_e).
Proof.
  intros self self1 switch. unfold switch.
  destruct (tower_of_tables_ok x y hw calls) as (_ & _ & _ & Hpre & Hpost & _).
  fold self in Hpre, Hpost.
  rewrite !lines_get_tower_lines. split.
  - rewrite !filter_app, head_z_hop, Hpre, Hpost, purge_no_z_hop, tail_z_hop.
    cbn [filter app is_z_hop has_comment comment_of tool_change fmt String.eqb
         Ascii.eqb Bool.eqb].
    reflexivity.
  - set (other_e := Extruder.with_z_hop new_e other_z_hop).
    assert (Hpurge :
              map lift_of (tower_purge self layer other_e)
              = map lift_of (tower_purge self layer new_e)).
    { unfold tower_purge. rewrite !map_app, !map_flat_map.
      rewrite flat_map_ext
        with (g := fun speed => map lift_of (purge_round
                                              self new_e speed))
        by reflexivity.
      destruct_ifs; reflexivity. }
    assert (Htail :
              map lift_of (tower_tail self layer old_e
                             other_e z_hop z_speed xy_speed)
              = map lift_of (tower_tail self layer old_e
                               new_e z_hop z_speed xy_speed)).
    { unfold tower_tail, other_e. cbn [Extruder.wipe Extruder.with_z_hop].
      rewrite !map_app. destruct_ifs; reflexivity. }
    rewrite !map_app, Hpurge, Htail. reflexivity.
Qed.

(** * Further properties *)

(** ** What a raft call yields *)

Lemma lines_get_raft_lines first_layer extruder retract xy_speed z_speed self :
  lines_of (get_raft_lines first_layer extruder retract xy_speed z_speed) self
  = raft_head self extruder xy_speed z_speed
    ++ raft_fill self extruder
    ++ raft_tail extruder retract.
Proof.
  unfold get_raft_lines, raft_head, raft_fill, raft_tail.
  autorewrite with gen.
  rewrite lines_for_each by solve_pure.
  erewrite flat_map_ext with (g := fun _ => raft_round self extruder)
    by (intros; unfold raft_round; autorewrite with gen; reflexivity).
  rewrite <- !app_assoc. cbn [app].
  destruct (Py.truthy (Extruder.z_hop extruder)), retract; reflexivity.
Qed.

(** ** The object along a job *)

Lemma with_state_self self :
  self = with_state self (last_tower_z self) (flipflop_purge self)
           (flipflop_infill self).
Proof. now destruct self. Qed.

Lemma with_state_after_call c self z purge infill :
  with_state (after (run_call c) self) z purge infill
  = with_state self z purge infill.
Proof. rewrite after_run_call. now destruct c. Qed.

Lemma drive_with_state calls self :
  after (for_each calls run_call) self
  = with_state self
      (last_tower_z (after (for_each calls run_call) self))
      (flipflop_purge (after (for_each calls run_call) self))
      (flipflop_infill (after (for_each calls run_call) self)).
Proof.
  revert self. induction calls as [|c calls IH]; intros self.
  - apply with_state_self.
  - cbn [for_each]. rewrite !after_bind.
    set (A := after (for_each calls run_call) (after (run_call c) self)).
    etransitivity; [apply IH|]. fold A.
    apply with_state_after_call.
Qed.

Lemma drive_closed_form calls self :
  last_tower_z (after (for_each calls run_call) self)
  = fold_left z_step calls (last_tower_z self)
  /\ flipflop_purge (after (for_each calls run_call) self)
     = xorb (flipflop_purge self)
         (Nat.odd (length (filter is_switch_call calls)))
  /\ flipflop_infill (after (for_each calls run_call) self)
     = xorb (flipflop_infill self)
         (Nat.odd (length (filter is_infill_call calls))).
Proof.
  revert self. induction calls as [|c calls IH]; intros self.
  - cbn. now rewrite !xorb_false_r.
  - cbn [for_each fold_left]. rewrite !after_bind.
    destruct (IH (after (run_call c) self)) as (Hz & Hp & Hi).
    rewrite Hz, Hp, Hi, after_run_call.
    destruct c; cbn [filter is_switch_call is_infill_call length z_step
                     last_tower_z flipflop_purge flipflop_infill
                     set_last_tower_z set_flipflop_purge set_flipflop_infill];
      repeat split;
      rewrite ?Nat.odd_succ, <- ?Nat.negb_odd;
      destruct (flipflop_purge self), (flipflop_infill self);
      try destruct (Nat.odd (length (filter is_switch_call calls)));
      try destruct (Nat.odd (length (filter is_infill_call calls)));
      reflexivity.
Qed.

Lemma flags_init x y hw :
  flipflop_purge (__init__ x y hw) = false
  /\ flipflop_infill (__init__ x y hw) = false.
Proof.
  unfold __init__.
  match goal with
  | |- flipflop_purge (init_post_switch_gcode (init_pre_switch_gcode ?s)) = _ /\ _ =>
      generalize (eq_refl : flipflop_purge s = false);
      generalize (eq_refl : flipflop_infill s = false); generalize s
  end.
  intros s Hi Hp.
  unfold init_post_switch_gcode, init_pre_switch_gcode.
  destruct_ifs; split; assumption.
Qed.

(** X1. No call changes anything of the object but [last_tower_z] and the
    two flip flags: the tower of a job is the constructor's tower with
    these three attributes set; geometry, position, tables, purge line
    count and prepurge sign stay as built. *)
Theorem job_changes_only_the_state (x y : Q) (hw : string) (calls : list call) :
  tower_of x y hw calls
  = with_state (__init__ x y hw)
      (last_tower_z (tower_of x y hw calls))
      (flipflop_purge (tower_of x y hw calls))
      (flipflop_infill (tower_of x y hw calls)).
Proof. unfold tower_of. apply drive_with_state. Qed.

(** X2. Along a job [last_tower_z] is the running result of the calls (a
    raft sets 0.2, a switch or an infill adds its layer's height),
    [flipflop_purge] holds exactly when the number of switch calls is odd
    and [flipflop_infill] exactly when the number of infill calls is odd. *)
Theorem job_state_closed_form (x y : Q) (hw : string) (calls : list call) :
  last_tower_z (tower_of x y hw calls) = fold_left z_step calls 0
  /\ flipflop_purge (tower_of x y hw calls)
     = Nat.odd (length (filter is_switch_call calls))
  /\ flipflop_infill (tower_of x y hw calls)
     = Nat.odd (length (filter is_infill_call calls)).
Proof.
  unfold tower_of.
  destruct (drive_closed_form calls (__init__ x y hw)) as (Hz & Hp & Hi).
  destruct (flags_init x y hw) as (Fp & Fi).
  rewrite Hz, Hp, Hi, Fp, Fi, last_tower_z_init. repeat split.
Qed.

(** X3. What each generator reads of the mutable state: the lines of a raft
    call depend on none of [last_tower_z] and the flip flags; the lines of
    a switch call do not depend on [flipflop_infill]; the lines of an
    infill call depend neither on [flipflop_purge] nor on the tables. *)
Theorem generators_read_their_own_flag (self : SwitchTower)
  (layer : Layer.t) (e_pos : Q) (old_e new_e extruder : Extruder.t)
  (retract : bool) (z_hop z_speed xy_speed : Q)
  (z : Q) (purge infill : bool)
  (pre : bool -> list line) (post : list line) :
  lines_of (get_raft_lines layer extruder retract xy_speed z_speed)
    (with_state self z purge infill)
  = lines_of (get_raft_lines layer extruder retract xy_speed z_speed) self
  /\ lines_of (get_tower_lines layer e_pos old_e new_e z_hop z_speed xy_speed)
       (set_flipflop_infill self infill)
     = lines_of (get_tower_lines layer e_pos old_e new_e z_hop z_speed xy_speed)
         self
  /\ lines_of (get_infill_lines layer e_pos extruder z_hop z_speed xy_speed)
       (set_flipflop_purge
          (set_post_switch_lines (set_pre_switch_lines self pre) post) purge)
     = lines_of (get_infill_lines layer e_pos extruder z_hop z_speed xy_speed)
         self.
Proof.
  rewrite !lines_get_raft_lines, !lines_get_tower_lines, !lines_get_infill_lines.
  repeat split.
Qed.

(** ** More on the tables *)

Lemma init_tables_plain x y hw : tables_plain (__init__ x y hw).
Proof.
  intros p Hp.
  destruct (hw_cases hw) as [-> | [-> | [-> | (H1 & H2 & H3)]]].
  1-3: cbn [In] in Hp;
       repeat (destruct Hp as [<- | Hp]; [split; [intros [|]|]; reflexivity|]);
       contradiction.
  destruct (init_unknown x y hw H1 H2 H3) as (Hpre & Hpost & _).
  rewrite Hpost. split; [intros b; now rewrite Hpre | reflexivity].
Qed.

Lemma tower_of_tables_plain x y hw calls : tables_plain (tower_of x y hw calls).
Proof.
  unfold tower_of, tables_plain.
  destruct (drive_frame calls (__init__ x y hw)) as (H1 & H2 & _).
  rewrite H1, H2. apply init_tables_plain.
Qed.


Lemma Forall_flat_map {A B : Type} (P : B -> Prop) (f : A -> list B) xs :
  (forall x, Forall P (f x)) -> Forall P (flat_map f xs).
Proof.
  intros Hf. induction xs as [|x xs IH]; simpl; [constructor|].
  apply Forall_app. auto.
Qed.

(** X4. Every generator leaves the printer in absolute positioning: the
    mode commands of a raft call and of an infill call are [G91] then
    [G90]; those of a switch call are [G91], [G90], [G91], [G90]. *)
Theorem positioning_ends_absolute (x y : Q) (hw : string) (calls : list call)
  (layer : Layer.t) (e_pos : Q) (old_e new_e extruder : Extruder.t)
  (retract : bool) (z_hop z_speed xy_speed : Q) :
  let self := tower_of x y hw calls in
  let relative := raw "G91" " relative positioning" in
  let absolute := raw "G90" " absolute positioning" in
  filter is_mode
    (lines_of (get_raft_lines layer extruder retract xy_speed z_speed) self)
  = [relative; absolute]
  /\ filter is_mode
       (lines_of (get_tower_lines layer e_pos old_e new_e z_hop z_speed xy_speed)
          self)
     = [relative; absolute; relative; absolute]
  /\ filter is_mode
       (lines_of (get_infill_lines layer e_pos extruder z_hop z_speed xy_speed)
          self)
     = [relative; absolute].
Proof.
  intros self relative absolute.
  destruct (tower_of_tables_plain x y hw calls is_mode) as (Hpre & Hpost);
    [cbn; auto|]. fold self in Hpre, Hpost.
  rewrite lines_get_raft_lines, lines_get_tower_lines, lines_get_infill_lines.
  split; [|split].
  - unfold raft_head, raft_fill, raft_tail.
    rewrite !filter_app, filter_flat_map.
    erewrite flat_map_ext with (g := fun _ => []) by reflexivity.
    rewrite flat_map_nil. destruct_ifs; reflexivity.
  - rewrite !filter_app, Hpre, Hpost.
    unfold tower_head, tower_purge, tower_tail, _get_retraction, _get_z_hop.
    rewrite !filter_app, filter_flat_map.
    erewrite flat_map_ext with (g := fun _ => []) by reflexivity.
    rewrite flat_map_nil. destruct_ifs; reflexivity.
  - unfold infill_head, infill_zigzag, infill_tail, _get_retraction, _get_z_hop.
    rewrite !filter_app. destruct_ifs; reflexivity.
Qed.

(** X5. The lines of every generator are bracketed by its two section
    markers: the start marker comes first, the end marker last, and no
    other line is a marker. *)
Theorem markers_bracket_the_lines (x y : Q) (hw : string) (calls : list call)
  (layer : Layer.t) (e_pos : Q) (old_e new_e extruder : Extruder.t)
  (retract : bool) (z_hop z_speed xy_speed : Q) :
  let self := tower_of x y hw calls in
  let bracketed (start finish : string) (lines : list line) :=
    hd_error lines = Some (Line None (Some start))
    /\ last lines (Line None None) = Line None (Some finish)
    /\ filter is_marker lines
       = [Line None (Some start); Line None (Some finish)] in
  bracketed " TOWER RAFT START" " TOWER RAFT END"
    (lines_of (get_raft_lines layer extruder retract xy_speed z_speed) self)
  /\ bracketed " TOWER START" " TOWER END"
       (lines_of (get_tower_lines layer e_pos old_e new_e z_hop z_speed xy_speed)
          self)
  /\ bracketed " TOWER INFILL START" " TOWER INFILL END"
       (lines_of (get_infill_lines layer e_pos extruder z_hop z_speed xy_speed)
          self).
Proof.
  intros self bracketed. unfold bracketed.
  destruct (tower_of_tables_plain x y hw calls is_marker) as (Hpre & Hpost);
    [cbn; auto|]. fold self in Hpre, Hpost.
  rewrite lines_get_raft_lines, lines_get_tower_lines, lines_get_infill_lines.
  split; [|split]; (split; [reflexivity | split]).
  - unfold raft_tail.
    change [raw "G90" " absolute positioning";
            Line None (Some " TOWER RAFT END")]
      with ([raw "G90" " absolute positioning"]
            ++ [Line None (Some " TOWER RAFT END")]).
    rewrite !app_assoc. apply last_last.
  - unfold raft_head, raft_fill, raft_tail.
    rewrite !filter_app, filter_flat_map.
    erewrite flat_map_ext with (g := fun _ => []) by reflexivity.
    rewrite flat_map_nil. destruct_ifs; reflexivity.
  - unfold tower_tail. rewrite !app_assoc. apply last_last.
  - rewrite !filter_app, Hpre, Hpost.
    unfold tower_head, tower_purge, tower_tail, _get_retraction, _get_z_hop.
    rewrite !filter_app, filter_flat_map.
    erewrite flat_map_ext with (g := fun _ => []) by reflexivity.
    rewrite flat_map_nil. destruct_ifs; reflexivity.
  - unfold infill_tail.
    change [raw "G92 E0" " reset extruder position";
            Line None (Some " TOWER INFILL END")]
      with ([raw "G92 E0" " reset extruder position"]
            ++ [Line None (Some " TOWER INFILL END")]).
    rewrite !app_assoc. apply last_last.
  - unfold infill_head, infill_zigzag, infill_tail, _get_retraction, _get_z_hop.
    rewrite !filter_app. destruct_ifs; reflexivity.
Qed.

(** ** The two sides of the tool change *)


Lemma switch_after_tool_change x y hw calls layer e_pos old_e new_e
  z_hop z_speed xy_speed :
  let self := tower_of x y hw calls in
  after_tool_change
    (lines_of (get_tower_lines layer e_pos old_e new_e z_hop z_speed xy_speed)
       self)
  = post_switch_lines self
    ++ tower_purge self layer new_e
    ++ tower_tail self layer old_e new_e z_hop z_speed xy_speed.
Proof.
  intros self.
  destruct (tower_of_tables_ok x y hw calls) as (Hpre & _). fold self in Hpre.
  rewrite lines_get_tower_lines, app_assoc. cbn [app].
  apply after_tool_change_app; [|reflexivity].
  now rewrite filter_app, head_no_tool_change, Hpre.
Qed.

Lemma purge_trails self layer new_e :
  filter is_purge_trail (tower_purge self layer new_e)
  = flat_map
      (fun speed =>
         [trail self true speed new_e (Extruder.get_feed_rate new_e 1.2);
          trail self false speed new_e (Extruder.get_feed_rate new_e 1.2)])
      (generate_purge_speeds self (fst (Layer.get_outer_perimeter_rates layer)))
    ++ [trail self true 2400 new_e (snd (Layer.get_outer_perimeter_rates layer))]
    ++ (if (hw_config self =? E3DV6)%string then
          [trail self false (fst (Layer.get_outer_perimeter_rates layer)) new_e
             (snd (Layer.get_outer_perimeter_rates layer))]
        else []).
Proof.
  unfold tower_purge. rewrite !filter_app, filter_flat_map.
  f_equal. destruct_ifs; reflexivity.
Qed.

Lemma flat_map_pair_repeat {A B : Type} (f : A -> B) (a : A) n :
  flat_map (fun x => [f x; f x]) (repeat a n) = repeat (f a) (2 * n).
Proof.
  induction n as [|n IH]; [reflexivity|].
  replace (2 * S n)%nat with (S (S (2 * n))) by lia.
  cbn [repeat flat_map app]. now rewrite IH.
Qed.


(** X7. In a switch call every purge-trail move of the post-switch loop
    and the finishing pass runs at 2400, whatever the layer's minimum
    speed; only the extra pass of E3DV6 runs at the minimum speed. *)
Theorem purge_trail_speeds (x y : Q) (hw : string)
  (calls : list call) (layer : Layer.t) (e_pos : Q) (old_e new_e : Extruder.t)
  (z_hop z_speed xy_speed : Q) :
  let self := tower_of x y hw calls in
  let lines :=
    lines_of (get_tower_lines layer e_pos old_e new_e z_hop z_speed xy_speed)
      self in
  map speed_of (filter is_purge_trail (after_tool_change lines))
  = repeat (Some 2400) (2 * Z.to_nat (purge_lines self) + 1)
    ++ (if (hw =? E3DV6)%string
        then [Some (fst (Layer.get_outer_perimeter_rates layer))]
        else []).
Proof.
  intros self lines. unfold lines, self.
  rewrite (switch_after_tool_change x y hw calls). fold self.
  destruct (tower_of_tables_ok x y hw calls) as (_ & _ & Htrail & _).
  pose proof (tower_of_hw_config x y hw calls) as Hhw.
  fold self in Htrail, Hhw.
  rewrite !filter_app, Htrail, tail_no_purge_trail, purge_trails, app_nil_r.
  cbn [app]. rewrite generate_purge_speeds_repeat, Hhw.
  rewrite !map_app, map_flat_map.
  rewrite flat_map_ext
    with (g := fun speed : Q => [Some speed; Some speed]) by reflexivity.
  rewrite (flat_map_pair_repeat (fun speed : Q => Some speed)).
  rewrite repeat_app, <- app_assoc.
  destruct (hw =? E3DV6)%string; reflexivity.
Qed.

(** X8. The height a call sends the head down to is the one it records:
    the only descent of a switch call and of an infill call goes to the
    value of [last_tower_z] after the call, and the raft's descent is the
    [G1 Z0.2] after which [last_tower_z] is 0.2. *)
Theorem descent_matches_recorded_z (x y : Q) (hw : string) (calls : list call)
  (layer : Layer.t) (e_pos : Q) (old_e new_e extruder : Extruder.t)
  (retract : bool) (z_hop z_speed xy_speed : Q) :
  let self := tower_of x y hw calls in
  let raft := get_raft_lines layer extruder retract xy_speed z_speed in
  let switch := get_tower_lines layer e_pos old_e new_e z_hop z_speed xy_speed in
  let infill := get_infill_lines layer e_pos extruder z_hop z_speed xy_speed in
  (filter is_move_z_close (lines_of raft self)
   = [fmt "G1 Z0.2 F%d" [Num z_speed] " move z close"]
   /\ last_tower_z (after raft self) = 0.2)
  /\ filter is_move_z_close (lines_of switch self)
     = [fmt "G1 Z%.3f F%.1f"
          [Num (last_tower_z (after switch self)); Num z_speed]
          " move z close"]
  /\ filter is_move_z_close (lines_of infill self)
     = [fmt "G1 Z%.3f F%.1f"
          [Num (last_tower_z (after infill self)); Num z_speed]
          " move z close"].
Proof.
  intros self raft switch infill. unfold raft, switch, infill.
  destruct (tower_of_tables_plain x y hw calls is_move_z_close)
    as (Hpre & Hpost); [cbn; auto 10|]. fold self in Hpre, Hpost.
  rewrite after_get_raft_lines, after_get_tower_lines, after_get_infill_lines.
  rewrite lines_get_raft_lines, lines_get_tower_lines, lines_get_infill_lines.
  split; [split; [|reflexivity] | split].
  - unfold raft_head, raft_fill, raft_tail.
    rewrite !filter_app, filter_flat_map.
    erewrite flat_map_ext with (g := fun _ => []) by reflexivity.
    rewrite flat_map_nil. destruct_ifs; reflexivity.
  - rewrite !filter_app, Hpre, Hpost.
    unfold tower_head, tower_purge, tower_tail, _get_retraction, _get_z_hop.
    rewrite !filter_app, filter_flat_map.
    erewrite flat_map_ext with (g := fun _ => []) by reflexivity.
    rewrite flat_map_nil. destruct_ifs; reflexivity.
  - unfold infill_head, infill_zigzag, infill_tail, _get_retraction, _get_z_hop.
    rewrite !filter_app. destruct_ifs; reflexivity.
Qed.

(** ** The wipe *)

Lemma last_app_cons {A : Type} (xs : list A) y ys d :
  last (xs ++ y :: ys) d = last (y :: ys) d.
Proof.
  induction xs as [|x xs IH]; [reflexivity|].
  cbn [app]. rewrite <- IH. destruct xs; reflexivity.
Qed.

Lemma switch_last_trail x y hw calls layer e_pos old_e new_e
  z_hop z_speed xy_speed d :
  let self := tower_of x y hw calls in
  last (filter is_purge_trail
          (lines_of
             (get_tower_lines layer e_pos old_e new_e z_hop z_speed xy_speed)
             self)) d
  = if (hw_config self =? E3DV6)%string
    then trail self false (fst (Layer.get_outer_perimeter_rates layer)) new_e
           (snd (Layer.get_outer_perimeter_rates layer))
    else trail self true 2400 new_e
           (snd (Layer.get_outer_perimeter_rates layer)).
Proof.
  intros self.
  rewrite lines_get_tower_lines, !filter_app.
  rewrite tail_no_purge_trail, purge_trails, app_nil_r.
  destruct (hw_config self =? E3DV6)%string.
  - rewrite !app_assoc. apply last_last.
  - rewrite app_nil_r, !app_assoc. apply last_last.
Qed.

Lemma infill_last_pass layer e_pos extruder z_hop z_speed xy_speed self d :
  last (filter is_infill
          (lines_of
             (get_infill_lines layer e_pos extruder z_hop z_speed xy_speed)
             self)) d
  = infill_pass self layer extruder (negb (flipflop_infill self))
      (fst (Layer.get_outer_perimeter_rates layer)) true.
Proof.
  rewrite lines_get_infill_lines, !filter_app.
  assert (Htail : filter is_infill
                    (infill_tail self layer extruder z_hop z_speed) = []).
  { unfold infill_tail, _get_z_hop. rewrite !filter_app.
    destruct_ifs; reflexivity. }
  rewrite Htail, app_nil_r.
  unfold infill_zigzag. cbn [filter is_infill has_comment comment_of infill_pass].
  apply last_app_cons.
Qed.

(** X9. The wipe undoes the last pass: when the extruder has a wipe
    length, a switch call yields one wipe move, 180 degrees from the
    direction of its last purge trail, and an infill call one wipe move,
    180 degrees from the direction of its last fill pass; with no wipe
    length neither yields a wipe move. *)
Theorem wipe_reverses_the_last_pass (x y : Q) (hw : string)
  (calls : list call) (layer : Layer.t) (e_pos : Q)
  (old_e new_e extruder : Extruder.t) (z_hop z_speed xy_speed : Q) :
  let self := tower_of x y hw calls in
  let switch :=
    lines_of (get_tower_lines layer e_pos old_e new_e z_hop z_speed xy_speed)
      self in
  let infill :=
    lines_of (get_infill_lines layer e_pos extruder z_hop z_speed xy_speed)
      self in
  let wipe_after (passes lines : list line) (e : Extruder.t) (speed : Q) :=
    if Py.truthy (Extruder.wipe e) then
      exists d : Q,
        direction_of (last passes (Line None None)) = Some d
        /\ filter is_wipe lines
           = [Line (Some (gen_direction_move (d + 180) (Extruder.wipe e) speed
                            None None false))
                (Some " wipe")]
    else filter is_wipe lines = [] in
  wipe_after (filter is_purge_trail switch) switch new_e 3000
  /\ wipe_after (filter is_infill infill) infill extruder 2000.
Proof.
  intros self switch infill wipe_after. unfold wipe_after, switch, infill, self.
  rewrite (switch_last_trail x y hw calls), infill_last_pass. fold self.
  destruct (tower_of_tables_plain x y hw calls is_wipe) as (Hpre & Hpost);
    [cbn; auto 10|]. fold self in Hpre, Hpost.
  rewrite lines_get_tower_lines, lines_get_infill_lines.
  assert (Hhead : filter is_wipe
                    (tower_head self layer e_pos old_e z_hop z_speed xy_speed)
                  = []).
  { unfold tower_head, _get_retraction, _get_z_hop. rewrite !filter_app.
    destruct_ifs; reflexivity. }
  assert (Hpurge : filter is_wipe (tower_purge self layer new_e) = []).
  { unfold tower_purge. rewrite !filter_app, filter_flat_map.
    erewrite flat_map_ext with (g := fun _ => []) by reflexivity.
    rewrite flat_map_nil. destruct_ifs; reflexivity. }
  assert (Hihead : filter is_wipe
                     (infill_head self layer e_pos extruder z_hop z_speed
                        xy_speed) = []).
  { unfold infill_head, _get_retraction, _get_z_hop. rewrite !filter_app.
    destruct_ifs; reflexivity. }
  assert (Htc : filter is_wipe [tool_change new_e] = []) by reflexivity.
  assert (Hzig : filter is_wipe (infill_zigzag self layer extruder) = [])
    by reflexivity.
  rewrite !filter_app, Hhead, Hpre, Htc, Hpost, Hpurge, Hihead, Hzig.
  cbn [app].
  split.
  - unfold tower_tail, _get_z_hop. rewrite !filter_app.
    destruct (Py.truthy (Extruder.wipe new_e));
      destruct (hw_config self =? E3DV6)%string.
    + eexists. split; [reflexivity|]. destruct_ifs; reflexivity.
    + eexists. split; [reflexivity|]. destruct_ifs; reflexivity.
    + destruct_ifs; reflexivity.
    + destruct_ifs; reflexivity.
  - unfold infill_tail, _get_z_hop. rewrite !filter_app.
    destruct (Py.truthy (Extruder.wipe extruder)).
    + eexists. split; [reflexivity|]. destruct_ifs; reflexivity.
    + destruct_ifs; reflexivity.
Qed.

(** ** The geometry *)

(** What holds of the constructor's tower and does not depend on
    [last_tower_z] and the flip flags holds of the tower of every job. *)
Lemma job_invariant x y hw calls (P : SwitchTower -> Prop) :
  (forall s z purge infill, P s -> P (with_state s z purge infill)) ->
  P (__init__ x y hw) -> P (tower_of x y hw calls).
Proof.
  intros Hstate Hinit. unfold tower_of. rewrite drive_with_state.
  apply Hstate, Hinit.
Qed.

Lemma geometry_init x y hw :
  let self := __init__ x y hw in
  let e3d := (hw =? E3DV6)%string in
  width self == 50
  /\ height self == (if e3d then 16 else 14)
  /\ wall_width self == 52.4
  /\ wall_height self == (if e3d then 17 else 15)
  /\ raft_width self == 54
  /\ raft_height self == (if e3d then 18 else 16)
  /\ purge_line_length self == 50.6
  /\ purge_lines self = 6%Z
  /\ prepurge_sign self == (if e3d then -1 else 1)
  /\ start_pos_x self = x
  /\ start_pos_y self = y
  /\ raft_pos_x self = x - 2
  /\ raft_pos_y self = y - 1.2.
Proof.
  intros self e3d. unfold self, e3d.
  destruct (hw_cases hw) as [-> | [-> | [-> | (H1 & H2 & H3)]]].
  1-3: repeat (split; [reflexivity|]); reflexivity.
  unfold __init__. rewrite H3.
  rewrite init_post_unknown by (now rewrite hw_config_init_pre).
  unfold init_pre_switch_gcode.
  change (hw_config (set_pre_switch_lines _ _)) with hw.
  rewrite H1, H2, H3.
  repeat (split; [reflexivity|]); reflexivity.
Qed.

(** X10. The geometry is fixed by the hardware selector and no call
    changes it. On the tower of any job the purge zone is 50 wide and 14
    high (16 for E3DV6), the wall is 2.4 wider and 1 higher, the raft 4
    wider and 2 higher, a purge line is 50.6 long, there are 6 purge
    lines for every selector, known or not, the prepurge sign is -1 for
    E3DV6 only, and the raft corner is 2 left of and 1.2 below the start
    position. *)
Theorem geometry_fixed_by_hardware (x y : Q) (hw : string) (calls : list call) :
  let self := tower_of x y hw calls in
  let e3d := (hw =? E3DV6)%string in
  width self == 50
  /\ height self == (if e3d then 16 else 14)
  /\ wall_width self == 52.4
  /\ wall_height self == (if e3d then 17 else 15)
  /\ raft_width self == 54
  /\ raft_height self == (if e3d then 18 else 16)
  /\ purge_line_length self == 50.6
  /\ purge_lines self = 6%Z
  /\ prepurge_sign self == (if e3d then -1 else 1)
  /\ start_pos_x self = x
  /\ start_pos_y self = y
  /\ raft_pos_x self = x - 2
  /\ raft_pos_y self = y - 1.2.
Proof.
  intros self e3d. unfold self, e3d.
  pattern (tower_of x y hw calls). apply job_invariant.
  - intros s z purge infill H. exact H.
  - exact (geometry_init x y hw).
Qed.

Lemma sign_test x y hw calls :
  Qeq_bool (prepurge_sign (tower_of x y hw calls)) 1
  = negb (hw =? E3DV6)%string.
Proof.
  pattern (tower_of x y hw calls). apply job_invariant.
  - intros s z purge infill H. exact H.
  - pose proof (geometry_init x y hw) as H. cbv zeta in H.
    destruct H as (_ & _ & _ & _ & _ & _ & _ & _ & Hs & _).
    destruct (hw =? E3DV6)%string; cbn [negb].
    + apply not_true_is_false. intros Hc. apply Qeq_bool_iff in Hc.
      rewrite Hs in Hc. vm_compute in Hc. discriminate Hc.
    + apply Qeq_bool_iff. exact Hs.
Qed.

Lemma purge_length_job x y hw calls :
  purge_line_length (tower_of x y hw calls)
  * prepurge_sign (tower_of x y hw calls)
  == (if (hw =? E3DV6)%string then -50.6 else 50.6).
Proof.
  pattern (tower_of x y hw calls). apply job_invariant.
  - intros s z purge infill H. exact H.
  - pose proof (geometry_init x y hw) as H. cbv zeta in H.
    destruct H as (_ & _ & _ & _ & _ & _ & Hl & _ & Hs & _).
    rewrite Hl, Hs. destruct (hw =? E3DV6)%string; reflexivity.
Qed.

Lemma flat_map_const {A B : Type} (l : list B) (xs : list A) :
  flat_map (fun _ => l) xs = concat (repeat l (length xs)).
Proof.
  induction xs as [|x xs IH]; [reflexivity|].
  cbn [flat_map length repeat concat]. now rewrite IH.
Qed.

(** X11. The post-switch purge of E3DV6 is the mirror image of the
    others: in a switch call the purge trails after the tool change
    alternate between two directions, starting west with length 50.6 for
    PEEK, PTFE and an unknown selector, and starting east with length
    -50.6 for E3DV6. *)
Theorem purge_trails_mirrored_for_e3dv6 (x y : Q) (hw : string)
  (calls : list call) (layer : Layer.t) (e_pos : Q) (old_e new_e : Extruder.t)
  (z_hop z_speed xy_speed : Q) :
  let self := tower_of x y hw calls in
  let trails :=
    filter is_purge_trail
      (after_tool_change
         (lines_of
            (get_tower_lines layer e_pos old_e new_e z_hop z_speed xy_speed)
            self)) in
  let e3d := (hw =? E3DV6)%string in
  let first := if e3d then dir_E else dir_W in
  let second := if e3d then dir_W else dir_E in
  map direction_of trails
  = concat (repeat [Some first; Some second] (Z.to_nat (purge_lines self)))
    ++ [Some first] ++ (if e3d then [Some second] else [])
  /\ Forall (fun l => exists len : Q,
                length_of l = Some len
                /\ len == (if e3d then -50.6 else 50.6))
       trails.
Proof.
  intros self trails e3d first second. unfold trails, self.
  rewrite (switch_after_tool_change x y hw calls). fold self.
  destruct (tower_of_tables_ok x y hw calls) as (_ & _ & Htrail & _).
  pose proof (tower_of_hw_config x y hw calls) as Hhw.
  pose proof (sign_test x y hw calls) as Hsign.
  pose proof (purge_length_job x y hw calls) as Hlen.
  fold self in Htrail, Hhw, Hsign, Hlen. fold e3d in Hsign, Hlen.
  rewrite !filter_app, Htrail, tail_no_purge_trail, purge_trails, app_nil_r.
  cbn [app]. rewrite generate_purge_speeds_repeat, Hhw. fold e3d.
  split.
  - rewrite !map_app, map_flat_map.
    rewrite flat_map_ext with (g := fun _ : Q => [Some first; Some second]).
    + rewrite flat_map_const, repeat_length. f_equal.
      unfold trail, first, second. cbn [map direction_of]. rewrite Hsign.
      destruct e3d; reflexivity.
    + intros speed. unfold trail, first, second. cbn [map direction_of].
      rewrite Hsign. destruct e3d; reflexivity.
  - assert (Hone : forall b speed feed,
               exists len : Q,
                 length_of (trail self b speed new_e feed) = Some len
                 /\ len == (if e3d then -50.6 else 50.6)).
    { intros b speed feed. eexists. split; [reflexivity | exact Hlen]. }
    apply Forall_app. split.
    + apply Forall_flat_map. intros speed.
      repeat (apply Forall_cons; [apply Hone|]). apply Forall_nil.
    + apply Forall_cons; [apply Hone|].
      destruct e3d; repeat (apply Forall_cons; [apply Hone|]);
        apply Forall_nil.
Qed.

(** ** The raft *)

Lemma raft_width_init x y hw : raft_width (__init__ x y hw) = 50 + 4.
Proof.
  unfold __init__.
  match goal with
  | |- raft_width (init_post_switch_gcode (init_pre_switch_gcode ?s)) = _ =>
      generalize (eq_refl : raft_width s = 50 + 4); generalize s
  end.
  intros s Hs.
  unfold init_post_switch_gcode, init_pre_switch_gcode.
  destruct_ifs; exact Hs.
Qed.

Lemma raft_width_job x y hw calls : raft_width (tower_of x y hw calls) = 50 + 4.
Proof.
  pattern (tower_of x y hw calls). apply job_invariant.
  - intros s z purge infill H. exact H.
  - apply raft_width_init.
Qed.

(** X12. The fill of the raft spans the raft: a raft call makes 27 rounds
    of a pass north, a step east, a pass south and a step east; the 54
    steps are 1 long each, which adds up to the raft width of 54; every
    pass is as long as the raft is high and is driven by the extruder of
    the call. *)
Theorem raft_fill_spans_the_raft (x y : Q) (hw : string) (calls : list call)
  (first_layer : Layer.t) (extruder : Extruder.t) (retract : bool)
  (xy_speed z_speed : Q) :
  let self := tower_of x y hw calls in
  let lines :=
    lines_of (get_raft_lines first_layer extruder retract xy_speed z_speed)
      self in
  map length_of (filter is_raft_step lines) = repeat (Some 1) 54
  /\ raft_width self == 54
  /\ map direction_of (filter is_raft_pass lines)
     = concat (repeat [Some dir_N; Some dir_S] 27)
  /\ Forall (fun l => length_of l = Some (raft_height self)
                      /\ extruder_of l = Some extruder)
       (filter is_raft_pass lines).
Proof.
  intros self lines. unfold lines.
  pose proof (raft_width_job x y hw calls) as Hw. fold self in Hw.
  rewrite lines_get_raft_lines, !filter_app.
  assert (Hhs : filter is_raft_step (raft_head self extruder xy_speed z_speed)
                = []).
  { unfold raft_head. rewrite !filter_app. destruct_ifs; reflexivity. }
  assert (Hhp : filter is_raft_pass (raft_head self extruder xy_speed z_speed)
                = []).
  { unfold raft_head. rewrite !filter_app. destruct_ifs; reflexivity. }
  assert (Hts : filter is_raft_step (raft_tail extruder retract) = [])
    by (now destruct retract).
  assert (Htp : filter is_raft_pass (raft_tail extruder retract) = [])
    by (now destruct retract).
  rewrite Hhs, Hhp, Hts, Htp, !app_nil_r. cbn [app].
  unfold raft_fill. rewrite Hw, !filter_flat_map, !map_flat_map.
  change (Py.range (Py.int ((50 + 4) / 2))) with (Py.range 27).
  split; [|split; [|split]].
  - rewrite flat_map_ext with (g := fun _ : Z => [Some 1; Some 1])
      by reflexivity.
    rewrite flat_map_const. reflexivity.
  - reflexivity.
  - rewrite flat_map_ext with (g := fun _ : Z => [Some dir_N; Some dir_S])
      by reflexivity.
    rewrite flat_map_const. reflexivity.
  - apply Forall_flat_map. intros _.
    change (filter is_raft_pass (raft_round self extruder))
      with [Line (Some (gen_direction_move dir_N (raft_height self) 1000
                          (Some extruder)
                          (Some (Extruder.get_feed_rate extruder 1.3)) false))
              (Some " raft1");
            Line (Some (gen_direction_move dir_S (raft_height self) 1000
                          (Some extruder)
                          (Some (Extruder.get_feed_rate extruder 1.3)) false))
              (Some " raft3")].
    repeat constructor.
Qed.

(** ** The tables *)

Lemma tables_mirror_init x y hw :
  let self := __init__ x y hw in
  filter (fun l => negb (is_y_shift l)) (pre_switch_lines self true)
  = filter (fun l => negb (is_y_shift l)) (pre_switch_lines self false)
  /\ map is_y_shift (pre_switch_lines self true)
     = map is_y_shift (pre_switch_lines self false)
  /\ (forall b,
        Qeq_bool (prepurge_sign self) 1
        = Nat.even (count is_purge_trail (pre_switch_lines self b))).
Proof.
  intros self. unfold self.
  destruct (hw_cases hw) as [-> | [-> | [-> | (H1 & H2 & H3)]]].
  1-3: split; [reflexivity | split; [reflexivity | intros [|]; reflexivity]].
  destruct (init_unknown x y hw H1 H2 H3) as (Hpre & _).
  pose proof (geometry_init x y hw) as H. cbv zeta in H.
  destruct H as (_ & _ & _ & _ & _ & _ & _ & _ & Hs & _).
  rewrite H3 in Hs. rewrite !Hpre.
  split; [reflexivity | split; [reflexivity|]].
  intros b. rewrite Hpre. apply Qeq_bool_iff. exact Hs.
Qed.

(** X13. The flip and the flop pre-switch tables mirror each other and
    fit the prepurge sign: on the tower of any job the two tables hold the
    same commands in the same order apart from their Y shifts, which sit
    at the same positions, and the prepurge sign is 1 exactly when a
    table holds an even number of purge trails (4 for PEEK and PTFE, 5
    for E3DV6, none for an unknown selector). *)
Theorem tables_mirror_each_other (x y : Q) (hw : string) (calls : list call) :
  let self := tower_of x y hw calls in
  filter (fun l => negb (is_y_shift l)) (pre_switch_lines self true)
  = filter (fun l => negb (is_y_shift l)) (pre_switch_lines self false)
  /\ map is_y_shift (pre_switch_lines self true)
     = map is_y_shift (pre_switch_lines self false)
  /\ (forall b,
        Qeq_bool (prepurge_sign self) 1
        = Nat.even (count is_purge_trail (pre_switch_lines self b))).
Proof.
  intros self. unfold self.
  pattern (tower_of x y hw calls). apply job_invariant.
  - intros s z purge infill H. exact H.
  - exact (tables_mirror_init x y hw).
Qed.

(** ** The extruder position and the fill speeds *)

(** X14. A switch call and an infill call reset the extruder position
    exactly once, with [G92 E0]; a raft call never does. *)
Theorem extruder_position_reset_once (x y : Q) (hw : string)
  (calls : list call) (layer : Layer.t) (e_pos : Q)
  (old_e new_e extruder : Extruder.t) (retract : bool)
  (z_hop z_speed xy_speed : Q) :
  let self := tower_of x y hw calls in
  let reset := raw "G92 E0" " reset extruder position" in
  filter is_reset
    (lines_of (get_raft_lines layer extruder retract xy_speed z_speed) self)
  = []
  /\ filter is_reset
       (lines_of (get_tower_lines layer e_pos old_e new_e z_hop z_speed xy_speed)
          self)
     = [reset]
  /\ filter is_reset
       (lines_of (get_infill_lines layer e_pos extruder z_hop z_speed xy_speed)
          self)
     = [reset].
Proof.
  intros self reset.
  destruct (tower_of_tables_plain x y hw calls is_reset) as (Hpre & Hpost);
    [cbn; auto 10|]. fold self in Hpre, Hpost.
  rewrite lines_get_raft_lines, lines_get_tower_lines, lines_get_infill_lines.
  split; [|split].
  - unfold raft_head, raft_fill, raft_tail.
    rewrite !filter_app, filter_flat_map.
    erewrite flat_map_ext with (g := fun _ => []) by reflexivity.
    rewrite flat_map_nil. destruct_ifs; reflexivity.
  - rewrite !filter_app, Hpre, Hpost.
    unfold tower_head, tower_purge, tower_tail, _get_retraction, _get_z_hop.
    rewrite !filter_app, filter_flat_map.
    erewrite flat_map_ext with (g := fun _ => []) by reflexivity.
    rewrite flat_map_nil. destruct_ifs; reflexivity.
  - unfold infill_head, infill_zigzag, infill_tail, _get_retraction, _get_z_hop.
    rewrite !filter_app. destruct_ifs; reflexivity.
Qed.

(** X15. When the layer's minimum speed is at most 2400, the fill passes
    of an infill call never speed up and stay between the two: their
    speeds are non-increasing, at most 2400 and at least the minimum
    speed. *)
Theorem infill_speeds_descend (self : SwitchTower) (layer : Layer.t)
  (e_pos : Q) (extruder : Extruder.t) (z_hop z_speed xy_speed : Q) :
  fst (Layer.get_outer_perimeter_rates layer) <= 2400 ->
  exists speeds : list Q,
    map speed_of
      (filter is_infill
         (lines_of
            (get_infill_lines layer e_pos extruder z_hop z_speed xy_speed)
            self))
    = map Some speeds
    /\ Sorted (fun a b => b <= a) speeds
    /\ Forall (fun speed =>
                 fst (Layer.get_outer_perimeter_rates layer) <= speed
                 /\ speed <= 2400)
         speeds.
Proof.
  intros Hmin.
  set (min_speed := fst (Layer.get_outer_perimeter_rates layer)) in *.
  exists [2400 - inject_Z 0 * ((2400 - min_speed) / 4);
          2400 - inject_Z 1 * ((2400 - min_speed) / 4);
          2400 - inject_Z 2 * ((2400 - min_speed) / 4);
          2400 - inject_Z 3 * ((2400 - min_speed) / 4);
          min_speed; min_speed].
  split.
  - rewrite lines_get_infill_lines, !filter_app.
    replace (filter is_infill (infill_head _ _ _ _ _ _ _)) with (@nil line)
      by (unfold infill_head, _get_retraction, _get_z_hop;
          destruct_ifs; reflexivity).
    replace (filter is_infill (infill_tail _ _ _ _ _)) with (@nil line)
      by (unfold infill_tail, _get_z_hop; destruct_ifs; reflexivity).
    reflexivity.
  - change (inject_Z 0) with 0. change (inject_Z 1) with 1.
    change (inject_Z 2) with 2. change (inject_Z 3) with 3.
    set (step := (2400 - min_speed) / 4).
    assert (Hstep : 4 * step == 2400 - min_speed) by (unfold step; field).
    clearbody step. split.
    + repeat (apply Sorted_cons;
              [|first [apply HdRel_nil | apply HdRel_cons; lra]]).
      apply Sorted_nil.
    + repeat (apply Forall_cons; [split; lra|]). apply Forall_nil.
Qed.

(** ** The wall *)

(** X16. The wall starts at the corner the head was moved to. A switch
    call moves the head to the upper left corner and prints the wall
    east, south, west, north with the incoming extruder at the minimum
    speed; an infill call moves to the lower left corner and prints east,
    north, west, south when [flipflop_infill] holds, and to the upper left
    corner and prints east, south, west, north otherwise, at 2400. The
    sides are [wall_width], [wall_height], [wall_width] and
    [wall_height - 0.3] long, and only the fourth is flagged as the last
    line. *)
Theorem walls_start_at_their_corner (x y : Q) (hw : string)
  (calls : list call) (layer : Layer.t) (e_pos : Q)
  (old_e new_e extruder : Extruder.t) (z_hop z_speed xy_speed : Q) :
  let self := tower_of x y hw calls in
  let switch :=
    lines_of (get_tower_lines layer e_pos old_e new_e z_hop z_speed xy_speed)
      self in
  let infill :=
    lines_of (get_infill_lines layer e_pos extruder z_hop z_speed xy_speed)
      self in
  let min_speed := fst (Layer.get_outer_perimeter_rates layer) in
  let feed_rate := snd (Layer.get_outer_perimeter_rates layer) in
  let wall e speed d l last :=
    Line (Some (gen_direction_move d l speed (Some e) (Some feed_rate) last))
         (Some " wall") in
  let corner (upper : bool) :=
    Line (Some (gen_head_move
                  (start_pos_x self - 1.2)
                  (if upper then start_pos_y self - 0.5 + wall_height self
                   else start_pos_y self - 0.5)
                  xy_speed))
         (Some " move to purge zone") in
  let flip := flipflop_infill self in
  (filter is_wall switch
   = [wall new_e min_speed dir_E (wall_width self) false;
      wall new_e min_speed dir_S (wall_height self) false;
      wall new_e min_speed dir_W (wall_width self) false;
      wall new_e min_speed dir_N (wall_height self - 0.3) true]
   /\ last (filter is_corner_move switch) (Line None None) = corner true)
  /\ (filter is_wall infill
      = [wall extruder 2400 dir_E (wall_width self) false;
         wall extruder 2400 (if flip then dir_N else dir_S) (wall_height self)
           false;
         wall extruder 2400 dir_W (wall_width self) false;
         wall extruder 2400 (if flip then dir_S else dir_N)
           (wall_height self - 0.3) true]
      /\ filter is_corner_move infill = [corner (negb flip)]).
Proof.
  intros self switch infill min_speed feed_rate wall corner flip.
  unfold switch, infill, wall, corner, flip, min_speed, feed_rate.
  destruct (tower_of_tables_plain x y hw calls is_wall) as (Hpre & Hpost);
    [cbn; auto 12|].
  destruct (tower_of_tables_plain x y hw calls is_corner_move)
    as (Hpre' & Hpost'); [cbn; auto 12|].
  fold self in Hpre, Hpost, Hpre', Hpost'.
  rewrite lines_get_tower_lines, lines_get_infill_lines.
  assert (Hpurge : forall p,
             p = is_wall \/ p = is_corner_move ->
             filter p (tower_purge self layer new_e) = []).
  { intros p Hp. unfold tower_purge. rewrite !filter_app, filter_flat_map.
    erewrite flat_map_ext with (g := fun _ => [])
      by (destruct Hp as [-> | ->]; reflexivity).
    rewrite flat_map_nil.
    destruct Hp as [-> | ->]; destruct_ifs; reflexivity. }
  rewrite !filter_app, Hpre, Hpost, Hpre', Hpost', !Hpurge by auto.
  split; split.
  - unfold tower_head, tower_tail, _get_retraction, _get_z_hop.
    rewrite !filter_app. destruct_ifs; reflexivity.
  - unfold tower_head, tower_tail, _get_retraction, _get_z_hop.
    rewrite !filter_app. destruct_ifs; reflexivity.
  - unfold infill_head, infill_zigzag, infill_tail, _get_retraction, _get_z_hop.
    rewrite !filter_app.
    destruct (flipflop_infill self); destruct_ifs; reflexivity.
  - unfold infill_head, infill_zigzag, infill_tail, _get_retraction, _get_z_hop.
    rewrite !filter_app.
    destruct (flipflop_infill self); cbn [negb]; destruct_ifs; reflexivity.
Qed.

End SwitchTower.

(** * Closed examples *)

(** C2, the claim as stated fails: on the PEEK tower [purge_lines + 1] is 7,
    and a switch call yields 13 purge-trail moves after the tool change. *)
Lemma purge_passes_counterexample :
  hw_config Sample.tower = PEEK
  /\ (purge_lines Sample.tower + 1 = 7)%Z
  /\ count is_purge_trail (after_tool_change (lines_of (get_tower_lines utils.is_float_zero Sample.E Sample.S Sample.W
                           Sample.N Sample.layer (-10) Sample.e0 Sample.e1
                           0.5 100 6000)
                  Sample.tower))
     = 13%nat
  /\ Z.of_nat
       (count is_purge_trail
          (after_tool_change (lines_of (get_tower_lines utils.is_float_zero Sample.E Sample.S Sample.W
                           Sample.N Sample.layer (-10) Sample.e0 Sample.e1
                           0.5 100 6000)
                  Sample.tower)))
     <> (purge_lines Sample.tower + 1)%Z.
Proof.
  split; [vm_compute; reflexivity|].
  split; [vm_compute; reflexivity|].
  split; [vm_compute; reflexivity|].
  vm_compute. discriminate.
Qed.

(** C2, as amended, on the PEEK tower: the 13 moves are
    [2 * purge_lines + 1]. *)
Lemma purge_passes_witness :
  Z.of_nat
    (count is_purge_trail
       (after_tool_change
          (lines_of (get_tower_lines utils.is_float_zero Sample.E Sample.S Sample.W
                       Sample.N Sample.layer (-10) Sample.e0 Sample.e1
                       0.5 100 6000)
             (tower_of utils.is_float_zero Sample.atan Sample.degrees
                Sample.calculate_path_length
                Sample.E Sample.S Sample.W Sample.N Sample.SE 0 1 PEEK []))))
  = (2 * purge_lines
           (tower_of utils.is_float_zero Sample.atan Sample.degrees
              Sample.calculate_path_length
              Sample.E Sample.S Sample.W Sample.N Sample.SE 0 1 PEEK [])
     + 1)%Z.
Proof.
  exact (proj1 (purge_passes_per_switch utils.is_float_zero Sample.atan
                  Sample.degrees Sample.calculate_path_length
                  Sample.E Sample.S Sample.W Sample.N Sample.SE
                  0 1 PEEK [] Sample.layer (-10) Sample.e0 Sample.e1
                  0.5 100 6000)
           (or_intror eq_refl)).
Defined.

(** C3, the claim as stated fails: with a retract length of 2 and the
    extruder at -10, the helper returns [G1 E8 ...]: the magnitude 8 is not
    capped at 2, and the feed is not negative. *)
Lemma retraction_counterexample :
  _get_retraction utils.is_float_zero Sample.tower (-10) Sample.e0
  = Some (fmt "G1 E%.4f F%.1f" [Num 8; Num 1800] " tower retract")
  /\ ~ Qabs 8 <= Extruder.retract Sample.e0
  /\ ~ 8 < 0.
Proof.
  split; [vm_compute; reflexivity|].
  split; intros H; vm_compute in H; [now apply H | discriminate].
Qed.

(** C3, as amended, on the spec's two examples: offset -2 with retract 2
    gives no command; offset -1 with retract 3 gives [G1 E-2 ...]. *)
Lemma retraction_witness :
  _get_retraction utils.is_float_zero Sample.tower (-2) Sample.e0 = None
  /\ _get_retraction utils.is_float_zero Sample.tower (-1) Sample.e1
     = Some (fmt "G1 E%.4f F%.1f" [Num (-2); Num 1800] " tower retract").
Proof.
  split.
  - exact (proj1 (retraction_capped_from_above utils.is_float_zero
                    Sample.tower (-2) Sample.e0) eq_refl).
  - exact (proj2 (retraction_capped_from_above utils.is_float_zero
                    Sample.tower (-1) Sample.e1) eq_refl).
Defined.

(** C5 on a job: the constructor, the raft, a switch and an infill. *)
Lemma last_tower_z_witness :
  Sorted Qle
    (last_tower_z (__init__ 0 1 PEEK)
     :: z_trace utils.is_float_zero Sample.atan Sample.degrees
          Sample.calculate_path_length
          Sample.E Sample.S Sample.W Sample.N Sample.SE
          [RaftCall Sample.layer Sample.e0 true 6000 100;
           TowerCall Sample.layer (-10) Sample.e0 Sample.e1 0.5 100 6000;
           InfillCall Sample.layer 0 Sample.e1 0.5 100 6000]
          (__init__ 0 1 PEEK)).
Proof.
  assert (Hgrows :
            Forall grows
              [TowerCall Sample.layer (-10) Sample.e0 Sample.e1 0.5 100 6000;
               InfillCall Sample.layer 0 Sample.e1 0.5 100 6000]).
  { repeat constructor; simpl; lra. }
  exact (proj2 (proj2 (proj2
           (last_tower_z_monotone utils.is_float_zero Sample.atan Sample.degrees
              Sample.calculate_path_length
              Sample.E Sample.S Sample.W Sample.N Sample.SE
              0 1 PEEK Sample.layer Sample.e0 true 6000 100 _))) Hgrows).
Defined.

(** C6 on the selector ["MK8"]. *)
Lemma unknown_hw_witness :
  ~ In "MK8" HW_CONFIGS
  /\ pre_switch_lines (__init__ 0 1 "MK8") true = []
  /\ pre_switch_lines (__init__ 0 1 "MK8") false = []
  /\ post_switch_lines (__init__ 0 1 "MK8") = [].
Proof.
  assert (H : ~ In "MK8" HW_CONFIGS).
  { simpl. intros [H | [H | [H | []]]]; discriminate H. }
  split; [exact H|].
  destruct (unknown_hw_empty_tables utils.is_float_zero Sample.atan
              Sample.degrees Sample.calculate_path_length
              Sample.E Sample.S Sample.W Sample.N Sample.SE
              0 1 "MK8" [] Sample.layer (-10) Sample.e0 Sample.e1
              0.5 100 6000 H)
    as (H1 & H2 & H3 & _).
  auto.
Defined.

(** C8 on the fresh PEEK tower: extruder [e0] has a z-hop of 0.5 and
    [0 + 0.5] differs from [0.4 + 0.5], so the helper lifts; extruder [e1]
    has none, so it does not. *)
Lemma z_hop_witness :
  _get_z_hop Sample.tower Sample.layer 0.5 100 Sample.e0
  = Some (fmt "G1 Z%.3f F%.1f"
            [Num (last_tower_z Sample.tower + Extruder.z_hop Sample.e0); Num 100]
            " z-hop")
  /\ _get_z_hop Sample.tower Sample.layer 0.5 100 Sample.e1 = None.
Proof.
  pose proof (z_hop_iff_differs Sample.tower Sample.layer 0.5 100 Sample.e0)
    as [H0 _].
  pose proof (z_hop_iff_differs Sample.tower Sample.layer 0.5 100 Sample.e1)
    as [_ H1].
  split.
  - apply H0; intros H; vm_compute in H; discriminate H.
  - apply H1. reflexivity.
Defined.

(** C9 with a retract length of 2 and the extruder at -10: the helper
    returns an advance of 8. *)
Lemma negative_retraction_witness :
  exists e_value : Q,
    _get_retraction utils.is_float_zero Sample.tower (-10) Sample.e0
    = Some (fmt "G1 E%.4f F%.1f" [Num e_value; Num 1800] " tower retract")
    /\ 0 < e_value
    /\ (0 <= 2 -> e_value = - (2 + -10)).
Proof.
  exact (negative_retraction_advances utils.is_float_zero Sample.tower (-10)
           Sample.e0 eq_refl eq_refl).
Defined.

(** The fill speeds on the sample layer, whose minimum speed is 1200. *)
Lemma infill_speeds_witness :
  exists speeds : list Q,
    map speed_of
      (filter is_infill
         (lines_of
            (get_infill_lines utils.is_float_zero Sample.atan Sample.degrees
               Sample.calculate_path_length
               Sample.E Sample.S Sample.W Sample.N
               Sample.layer 0 Sample.e1 0.5 100 6000)
            Sample.tower))
    = map Some speeds
    /\ Sorted (fun a b => b <= a) speeds
    /\ Forall (fun speed =>
                 fst (Layer.get_outer_perimeter_rates Sample.layer) <= speed
                 /\ speed <= 2400)
         speeds.
Proof.
  assert (Hmin : fst (Layer.get_outer_perimeter_rates Sample.layer) <= 2400)
    by (simpl; lra).
  exact (infill_speeds_descend utils.is_float_zero Sample.atan Sample.degrees
           Sample.calculate_path_length
           Sample.E Sample.S Sample.W Sample.N
           Sample.tower Sample.layer 0 Sample.e1 0.5 100 6000 Hmin).
Defined.

(** The geometry of section 8 of the specification: PEEK has height 14,
    purge line length 50.6 and 6 purge lines; E3DV6 has height 16 and 6
    purge lines as well. *)
Example geometry_of_the_constructor :
  height (__init__ 0 1 PEEK) == 14
  /\ purge_line_length (__init__ 0 1 PEEK) == 50.6
  /\ purge_lines (__init__ 0 1 PEEK) = 6%Z
  /\ height (__init__ 0 1 E3DV6) == 16
  /\ purge_lines (__init__ 0 1 E3DV6) = 6%Z.
Proof. repeat split. Qed.

(** Two switch calls in a row toggle [flipflop_purge] from false to true
    and back. *)
Example two_switches_toggle :
  let switch := TowerCall Sample.layer 0 Sample.e0 Sample.e1 0.5 100 6000 in
  let tower calls :=
    tower_of utils.is_float_zero Sample.atan Sample.degrees
      Sample.calculate_path_length
      Sample.E Sample.S Sample.W Sample.N Sample.SE 0 1 PEEK calls in
  flipflop_purge (tower []) = false
  /\ flipflop_purge (tower [switch]) = true
  /\ flipflop_purge (tower [switch; switch]) = false.
Proof. repeat split; vm_compute; reflexivity. Qed.
